(** * Server-side aggregation of a federated-learning round

    A shallow embedding of [Code/server.py]: the CKKS context set-up and its
    public export, [aggregate_fit] (decrypt, average, re-encrypt) and
    [aggregate_evaluate] (sample-weighted loss and accuracy together with the
    process-wide per-round series).

    Conventions of the embedding.
    - Python exceptions are explicit: a computation returns [Ok v] or
      [Raise e].  Code that mutates the module-level lists runs in the monad
      [py], which threads the lists and keeps every mutation made before an
      exception is raised, as the interpreter does.
    - Python's [float] is an interface ([PyFloat]): the carrier, [0.0], [+],
      [float * int], [float / int] and [==].  The theorems hold for every
      implementation of the interface; [Toy.Qfloat] (exact rationals) is used
      to run the model on concrete rounds.
    - TenSEAL, pickle and Flower's numpy serializer are libraries outside the
      repository; they enter as the interfaces [TenSEAL] and [Serializers].
      Key generation and encryption draw random coins; an implementation of
      [TenSEAL] fixes them, so every operation is a function of its inputs.
    - [print] calls are not modelled: they do not influence a returned value
      or a series. *)

From Stdlib Require Import ZArith QArith List Lia.
From stdpp Require Import base option list gmap strings.

Close Scope Q_scope.
Open Scope Z_scope.

(** ** Python values, exceptions and the state monad *)

Inductive exn : Type :=
  | ZeroDivisionError
  | KeyError (key : string)
  | RuntimeError
  | ValueError.

Inductive result (A : Type) : Type :=
  | Ok (a : A)
  | Raise (e : exn).
Arguments Ok {A} a.
Arguments Raise {A} e.

(** [bytes] objects. *)
Abbreviation bytes := (list Byte.byte).

(** A computation over a mutable store [St]: the store after an exception is
    the store at the point where it was raised. *)
Definition py (St A : Type) : Type := St → result A * St.

#[global] Instance py_ret St : MRet (py St) := λ A a s, (Ok a, s).

#[global] Instance py_bind St : MBind (py St) := λ A B f m s,
  match m s with
  | (Ok a, s') => f a s'
  | (Raise e, s') => (Raise e, s')
  end.

Definition raise {St A} (e : exn) : py St A := λ s, (Raise e, s).

Definition modify {St} (f : St → St) : py St unit := λ s, (Ok tt, f s).

(** [for x in xs: acc = body(acc, x)], stopping at the first exception. *)
Fixpoint for_each {St A B} (body : A → B → py St A) (acc : A) (xs : list B)
  : py St A :=
  match xs with
  | [] => mret acc
  | x :: xs' => acc' ← body acc x; for_each body acc' xs'
  end.

(** ** Python floats *)

(** [int] operands are Python integers ([Z]).  Converting an int to a float
    raises [OverflowError] from 2^1024 on; sample counts arrive as 64-bit
    integers, so the conversion inside [fmul_int] and [fdiv_int] is taken
    to succeed.  Division by the int zero is not part of the interface: it
    raises, see [truediv]. *)
Class PyFloat : Type := {
  pyfloat : Type;
  fzero : pyfloat;                        (* 0.0 *)
  fadd : pyfloat → pyfloat → pyfloat;     (* x + y *)
  fmul_int : pyfloat → Z → pyfloat;       (* x * n, n an int *)
  fdiv_int : pyfloat → Z → pyfloat;       (* x / n, n a non-zero int *)
  feq : pyfloat → pyfloat → Prop          (* x == y *)
}.

(** ** Flower's data classes *)

Inductive Code : Type :=
  | OK
  | GET_PROPERTIES_NOT_IMPLEMENTED
  | GET_PARAMETERS_NOT_IMPLEMENTED
  | FIT_NOT_IMPLEMENTED
  | EVALUATE_NOT_IMPLEMENTED.

#[global] Instance Code_eq_dec : EqDecision Code.
Proof. solve_decision. Defined.

Record Status : Type := { code : Code; message : string }.

Record ClientProxy : Type := { cid : string }.

Section Data.
Context {PF : PyFloat}.

(** [EvaluateRes]; the metrics dictionary holds floats. *)
Record EvaluateRes : Type := {
  status : Status;
  loss : pyfloat;
  num_examples : Z;
  metrics : gmap string pyfloat
}.

(** What a tensor slot of a [Parameters] object may hold at run time. *)
Inductive Tensor : Type :=
  | TBytes (b : bytes)
  | TList (l : list pyfloat)
  | TNdarray (a : list pyfloat)
  | TOther.

Record Parameters : Type := { tensors : list Tensor; tensor_type : string }.

(** The [parameters] attribute of a fit result: a [Parameters] instance or
    any other object. *)
Inductive ParametersObj : Type :=
  | IsParameters (p : Parameters)
  | NotParameters.

Record FitRes : Type := {
  fit_status : Status;
  parameters : ParametersObj;
  fit_num_examples : Z;
  fit_metrics : gmap string pyfloat
}.

(** Entries of the [failures] argument; both aggregators ignore it. *)
Inductive Failure : Type :=
  | FailedClient (c : ClientProxy)
  | FailedWith (e : exn).

End Data.

(** ** Libraries outside the repository *)

(** TenSEAL, as far as the server uses it.  A context is created with its
    keys by [ts_context]; the two setters return the updated context.
    Deserializing and decrypting may raise.  Encrypting is total: the server
    only encrypts a mean of vectors it has just decrypted, which has their
    size. *)
Class TenSEAL `{PF : PyFloat} : Type := {
  context : Type;
  CKKSVector : Type;
  (* ts.context(scheme=CKKS, poly_modulus_degree=.., coeff_mod_bit_sizes=..) *)
  ts_context : Z → list Z → context;
  (* context.global_scale = s *)
  set_global_scale : context → Z → context;
  (* context.generate_galois_keys() *)
  generate_galois_keys : context → context;
  (* context.serialize(save_secret_key=b) *)
  context_serialize : context → bool → bytes;
  (* ts.context_from(data) *)
  context_from : bytes → result context;
  (* observers of a context *)
  encryption_parameters : context → Z * list Z;
  has_public_key : context → bool;
  has_galois_keys : context → bool;
  has_secret_key : context → bool;
  (* ts.ckks_vector_from(context, data) *)
  ckks_vector_from : context → bytes → result CKKSVector;
  (* vector.decrypt(), for a vector linked to the given context *)
  decrypt : context → CKKSVector → result (list pyfloat);
  (* ts.ckks_vector(context, values) *)
  ckks_vector : context → list pyfloat → CKKSVector;
  (* vector.serialize() *)
  vector_serialize : CKKSVector → bytes
}.

(** [pickle.dumps] on a list or an ndarray, and the numpy serializer behind
    [fl.common.ndarrays_to_parameters]. *)
Class Serializers `{PF : PyFloat} : Type := {
  pickle_dumps : Tensor → bytes;
  ndarray_to_bytes : bytes → bytes
}.

Section Model.
Context {PF : PyFloat} {TS : TenSEAL} {SZ : Serializers}.

(** ** The process-wide series (lines 29-34) *)

Record metrics_store : Type := {
  loss_per_round : list pyfloat;
  accuracy_per_round : list pyfloat;
  train_loss_per_round : list pyfloat;
  train_accuracy_per_round : list pyfloat;
  test_loss_per_round : list pyfloat;
  test_accuracy_per_round : list pyfloat
}.

Definition initial_store : metrics_store :=
  {| loss_per_round := []; accuracy_per_round := [];
     train_loss_per_round := []; train_accuracy_per_round := [];
     test_loss_per_round := []; test_accuracy_per_round := [] |}.

Definition append_loss (x : pyfloat) : py metrics_store unit :=
  modify (λ s,
    {| loss_per_round := loss_per_round s ++ [x];
       accuracy_per_round := accuracy_per_round s;
       train_loss_per_round := train_loss_per_round s;
       train_accuracy_per_round := train_accuracy_per_round s;
       test_loss_per_round := test_loss_per_round s;
       test_accuracy_per_round := test_accuracy_per_round s |}).

Definition append_accuracy (x : pyfloat) : py metrics_store unit :=
  modify (λ s,
    {| loss_per_round := loss_per_round s;
       accuracy_per_round := accuracy_per_round s ++ [x];
       train_loss_per_round := train_loss_per_round s;
       train_accuracy_per_round := train_accuracy_per_round s;
       test_loss_per_round := test_loss_per_round s;
       test_accuracy_per_round := test_accuracy_per_round s |}).

Definition append_train_loss (x : pyfloat) : py metrics_store unit :=
  modify (λ s,
    {| loss_per_round := loss_per_round s;
       accuracy_per_round := accuracy_per_round s;
       train_loss_per_round := train_loss_per_round s ++ [x];
       train_accuracy_per_round := train_accuracy_per_round s;
       test_loss_per_round := test_loss_per_round s;
       test_accuracy_per_round := test_accuracy_per_round s |}).

Definition append_train_accuracy (x : pyfloat) : py metrics_store unit :=
  modify (λ s,
    {| loss_per_round := loss_per_round s;
       accuracy_per_round := accuracy_per_round s;
       train_loss_per_round := train_loss_per_round s;
       train_accuracy_per_round := train_accuracy_per_round s ++ [x];
       test_loss_per_round := test_loss_per_round s;
       test_accuracy_per_round := test_accuracy_per_round s |}).

Definition append_test_loss (x : pyfloat) : py metrics_store unit :=
  modify (λ s,
    {| loss_per_round := loss_per_round s;
       accuracy_per_round := accuracy_per_round s;
       train_loss_per_round := train_loss_per_round s;
       train_accuracy_per_round := train_accuracy_per_round s;
       test_loss_per_round := test_loss_per_round s ++ [x];
       test_accuracy_per_round := test_accuracy_per_round s |}).

Definition append_test_accuracy (x : pyfloat) : py metrics_store unit :=
  modify (λ s,
    {| loss_per_round := loss_per_round s;
       accuracy_per_round := accuracy_per_round s;
       train_loss_per_round := train_loss_per_round s;
       train_accuracy_per_round := train_accuracy_per_round s;
       test_loss_per_round := test_loss_per_round s;
       test_accuracy_per_round := test_accuracy_per_round s ++ [x] |}).

(** ** [aggregate_evaluate] (lines 77-127) *)

(** [x / n] for a float [x] and an int [n]. *)
Definition truediv {St} (x : pyfloat) (n : Z) : py St pyfloat :=
  if decide (n = 0) then raise ZeroDivisionError else mret (fdiv_int x n).

(** [d[k]] on a dictionary. *)
Definition getitem {St} (d : gmap string pyfloat) (k : string)
  : py St pyfloat :=
  match d !! k with
  | Some v => mret v
  | None => raise (KeyError k)
  end.

(** The local accumulators of line 79. *)
Record totals : Type := {
  total_loss : pyfloat;
  total_accuracy : pyfloat;
  total_train_loss : pyfloat;
  total_train_accuracy : pyfloat;
  total_test_loss : pyfloat;
  total_test_accuracy : pyfloat;
  total_samples : Z
}.

Definition totals0 : totals :=
  {| total_loss := fzero; total_accuracy := fzero;
     total_train_loss := fzero; total_train_accuracy := fzero;
     total_test_loss := fzero; total_test_accuracy := fzero;
     total_samples := 0 |}.

(** The four divisions and four appends that occur twice in the source, at
    lines 93-101 and at lines 111-119. *)
Definition append_train_test (t : totals) : py metrics_store unit :=
  avg_train_loss ← truediv (total_train_loss t) (total_samples t);
  avg_train_accuracy ← truediv (total_train_accuracy t) (total_samples t);
  avg_test_loss ← truediv (total_test_loss t) (total_samples t);
  avg_test_accuracy ← truediv (total_test_accuracy t) (total_samples t);
  append_train_loss avg_train_loss;;
  append_train_accuracy avg_train_accuracy;;
  append_test_loss avg_test_loss;;
  append_test_accuracy avg_test_accuracy.

(** One iteration of the loop of lines 83-102. *)
Definition evaluate_step (t : totals) (entry : ClientProxy * EvaluateRes)
  : py metrics_store totals :=
  let eval_res := entry.2 in
  if decide (code (status eval_res) = OK) then
    let loss := loss eval_res in
    accuracy ← getitem (metrics eval_res) "accuracy";
    let num_samples := num_examples eval_res in
    let t' :=
      {| total_loss := fadd (total_loss t) (fmul_int loss num_samples);
         total_accuracy :=
           fadd (total_accuracy t) (fmul_int accuracy num_samples);
         total_train_loss := total_train_loss t;
         total_train_accuracy := total_train_accuracy t;
         total_test_loss := total_test_loss t;
         total_test_accuracy := total_test_accuracy t;
         total_samples := total_samples t + num_samples |} in
    append_train_test t';;
    mret t'
  else mret t.

Definition aggregate_evaluate (rnd : Z)
    (results : list (ClientProxy * EvaluateRes)) (failures : list Failure)
  : py metrics_store (pyfloat * gmap string pyfloat) :=
  t ← for_each evaluate_step totals0 results;
  if decide (total_samples t > 0) then
    avg_loss ← truediv (total_loss t) (total_samples t);
    avg_accuracy ← truediv (total_accuracy t) (total_samples t);
    append_loss avg_loss;;
    append_accuracy avg_accuracy;;
    append_train_test t;;
    mret (avg_loss, {[ "accuracy" := avg_accuracy ]})
  else mret (fzero, {[ "accuracy" := fzero ]}).

(** ** The CKKS context (lines 9-24) *)

Definition create_ckks_context : context :=
  let context := ts_context 16384 [60; 40; 40; 60] in
  let context := set_global_scale context (2 ^ 40) in
  generate_galois_keys context.

Definition server_context : context := create_ckks_context.

(** The bytes written to [ckks_context.tenseal]:
    [server_context.serialize(save_secret_key=False)]. *)
Definition ckks_context_tenseal : bytes :=
  context_serialize server_context false.

(** ** [aggregate_fit] (lines 37-74) *)

(** The body of the [try] block of lines 61-64; [None] stands for the
    [except Exception: continue] branch.  [torch.tensor] keeps the decrypted
    values (float32 rounding is part of the idealised arithmetic). *)
Definition try_decrypt (w : bytes) : option (list pyfloat) :=
  match ckks_vector_from server_context w with
  | Ok enc_vector =>
      match decrypt server_context enc_vector with
      | Ok decrypted_tensor => Some decrypted_tensor
      | Raise _ => None
      end
  | Raise _ => None
  end.

(** Lines 55-59: a list or an ndarray is pickled, anything that is not
    [bytes] afterwards is skipped. *)
Definition as_bytes (w : Tensor) : option bytes :=
  match w with
  | TBytes b => Some b
  | TList _ | TNdarray _ => Some (pickle_dumps w)
  | TOther => None
  end.

(** One iteration of the loop of lines 54-66. *)
Definition fit_step (sample_weights : list (list pyfloat)) (w : Tensor)
  : list (list pyfloat) :=
  match as_bytes w with
  | None => sample_weights
  | Some b =>
      match try_decrypt b with
      | Some decrypted_tensor => sample_weights ++ [decrypted_tensor]
      | None => sample_weights
      end
  end.

(** [torch.mean(torch.stack(ts), dim=0)]: [torch.stack] raises on an empty
    list and on tensors of different sizes; the mean is the elementwise sum
    divided by the number of tensors. *)
Definition torch_mean_stack (ts : list (list pyfloat))
  : result (list pyfloat) :=
  match ts with
  | [] => Raise RuntimeError
  | t :: rest =>
      if forallb (λ u, Nat.eqb (length u) (length t)) rest then
        Ok (map (λ x, fdiv_int x (Z.of_nat (length ts)))
                (fold_left (zip_with fadd) rest t))
      else Raise RuntimeError
  end.

(** [fl.common.ndarrays_to_parameters]. *)
Definition ndarrays_to_parameters (ndarrays : list bytes) : Parameters :=
  {| tensors := map (λ b, TBytes (ndarray_to_bytes b)) ndarrays;
     tensor_type := "numpy.ndarray" |}.

Definition aggregate_fit (rnd : Z) (results : list (ClientProxy * FitRes))
    (failures : list Failure)
  : result (option Parameters * gmap string pyfloat) :=
  let serialized_weights_list := map (λ entry, parameters entry.2) results in
  match serialized_weights_list with
  | [] => Ok (None, ∅)
  | first_params :: _ =>
      match first_params with
      | NotParameters => Ok (None, ∅)
      | IsParameters first_params =>
          let weights := tensors first_params in
          let sample_weights := fold_left fit_step weights [] in
          match sample_weights with
          | [] => Ok (None, ∅)
          | _ :: _ =>
              match torch_mean_stack sample_weights with
              | Raise e => Raise e
              | Ok mean =>
                  let aggregated_weights := [mean] in
                  let encrypted_weights :=
                    map (λ w, vector_serialize (ckks_vector server_context w))
                        aggregated_weights in
                  Ok (Some (ndarrays_to_parameters encrypted_weights), ∅)
              end
          end
      end
  end.

(** ** [trim_list] (lines 150-151), for a non-negative [length] *)

Definition trim_list {A} (lst : list A) (length : nat) : list A :=
  if decide (length < List.length lst)%nat then take length lst else lst.

(** ** After the run (lines 138 and 153-156) *)

Definition num_rounds : nat := 1.

(** The four train/test series are cut to [num_rounds] entries before
    plotting; the loss and accuracy series are plotted as they are. *)
Definition trim_series (s : metrics_store) : metrics_store :=
  {| loss_per_round := loss_per_round s;
     accuracy_per_round := accuracy_per_round s;
     train_loss_per_round := trim_list (train_loss_per_round s) num_rounds;
     train_accuracy_per_round :=
       trim_list (train_accuracy_per_round s) num_rounds;
     test_loss_per_round := trim_list (test_loss_per_round s) num_rounds;
     test_accuracy_per_round :=
       trim_list (test_accuracy_per_round s) num_rounds |}.

End Model.

(** * Vocabulary of the properties *)

Section EvaluateVocabulary.
Context {PF : PyFloat}.

Implicit Types (s : metrics_store) (t : totals).
Implicit Types (results : list (ClientProxy * EvaluateRes)).

(** The store after the four appends of [append_train_test]. *)
Definition with_train_test (s : metrics_store) (a b c d : pyfloat)
  : metrics_store :=
  {| loss_per_round := loss_per_round s;
     accuracy_per_round := accuracy_per_round s;
     train_loss_per_round := train_loss_per_round s ++ [a];
     train_accuracy_per_round := train_accuracy_per_round s ++ [b];
     test_loss_per_round := test_loss_per_round s ++ [c];
     test_accuracy_per_round := test_accuracy_per_round s ++ [d] |}.

(** The accumulators after an OK report (lines 89-91). *)
Definition accumulate t (loss accuracy : pyfloat) (num_samples : Z) : totals :=
  {| total_loss := fadd (total_loss t) (fmul_int loss num_samples);
     total_accuracy := fadd (total_accuracy t) (fmul_int accuracy num_samples);
     total_train_loss := total_train_loss t;
     total_train_accuracy := total_train_accuracy t;
     total_test_loss := total_test_loss t;
     total_test_accuracy := total_test_accuracy t;
     total_samples := total_samples t + num_samples |}.

Definition is_OK (entry : ClientProxy * EvaluateRes) : Prop :=
  code (status entry.2) = OK.

#[global] Instance is_OK_dec entry : Decision (is_OK entry).
Proof. unfold is_OK. apply _. Defined.

Definition ok_reports results : list (ClientProxy * EvaluateRes) :=
  filter is_OK results.

Definition has_accuracy (entry : ClientProxy * EvaluateRes) : Prop :=
  is_Some (metrics entry.2 !! "accuracy").

Definition accuracy_of (r : EvaluateRes) : pyfloat :=
  default fzero (metrics r !! "accuracy").

(** The accumulators after each OK report, in order. *)
Fixpoint running t results : list totals :=
  match results with
  | [] => []
  | entry :: rest =>
      if decide (is_OK entry) then
        let t' := accumulate t (loss entry.2) (accuracy_of entry.2)
                    (num_examples entry.2) in
        t' :: running t' rest
      else running t rest
  end.

Definition final_totals t results : totals :=
  foldl (λ t entry,
           if decide (is_OK entry) then
             accumulate t (loss entry.2) (accuracy_of entry.2)
               (num_examples entry.2)
           else t) t results.

(** The store after the loop appended one entry per element of [ts]. *)
Definition after_loop s (ts : list totals) : metrics_store :=
  {| loss_per_round := loss_per_round s;
     accuracy_per_round := accuracy_per_round s;
     train_loss_per_round :=
       train_loss_per_round s ++
       map (λ t, fdiv_int (total_train_loss t) (total_samples t)) ts;
     train_accuracy_per_round :=
       train_accuracy_per_round s ++
       map (λ t, fdiv_int (total_train_accuracy t) (total_samples t)) ts;
     test_loss_per_round :=
       test_loss_per_round s ++
       map (λ t, fdiv_int (total_test_loss t) (total_samples t)) ts;
     test_accuracy_per_round :=
       test_accuracy_per_round s ++
       map (λ t, fdiv_int (total_test_accuracy t) (total_samples t)) ts |}.

(** The store after a round that reached line 125: the loop appended one
    train/test entry per element of [ts], the final block one entry to each
    of the six series. *)
Definition after_round s (avg_loss avg_accuracy : pyfloat)
    (ts : list totals) (t : totals) : metrics_store :=
  {| loss_per_round := loss_per_round s ++ [avg_loss];
     accuracy_per_round := accuracy_per_round s ++ [avg_accuracy];
     train_loss_per_round :=
       train_loss_per_round (after_loop s (ts ++ [t]));
     train_accuracy_per_round :=
       train_accuracy_per_round (after_loop s (ts ++ [t]));
     test_loss_per_round :=
       test_loss_per_round (after_loop s (ts ++ [t]));
     test_accuracy_per_round :=
       test_accuracy_per_round (after_loop s (ts ++ [t])) |}.

(** [sum(f_i * num_examples_i)] over the given reports, added left to
    right from [0.0]. *)
Definition weighted_sum (f : EvaluateRes → pyfloat)
    (reports : list (ClientProxy * EvaluateRes)) : pyfloat :=
  foldl (λ acc entry, fadd acc (fmul_int (f entry.2) (num_examples entry.2)))
        fzero reports.

(** [sum(num_examples_i)] over the given reports. *)
Definition sample_count (reports : list (ClientProxy * EvaluateRes)) : Z :=
  foldl (λ n entry, n + num_examples entry.2) 0 reports.

(** The evaluation aggregator of the specification (section 4.4): the
    sample-weighted means over the OK reports, or the zero pair when the
    total sample count is not positive. *)
Definition spec_aggregate_evaluate results : pyfloat * gmap string pyfloat :=
  let reports := ok_reports results in
  if decide (sample_count reports > 0) then
    (fdiv_int (weighted_sum loss reports) (sample_count reports),
     {[ "accuracy" :=
          fdiv_int (weighted_sum accuracy_of reports) (sample_count reports) ]})
  else (fzero, {[ "accuracy" := fzero ]}).

(** An evaluation report with the given status code, loss, accuracy and
    sample count. *)
Definition report (name : string) (c : Code) (l a : pyfloat) (n : Z)
  : ClientProxy * EvaluateRes :=
  ({| cid := name |},
   {| status := {| code := c; message := "" |};
      loss := l; num_examples := n; metrics := {[ "accuracy" := a ]} |}).

Definition is_zero (x : pyfloat) : Prop := feq x fzero.

Definition grows_by_zeros (l l' : list pyfloat) : Prop :=
  ∃ zs, l' = l ++ zs ∧ Forall is_zero zs.

(** Each train/test series of [s'] is the one of [s] followed by zeros. *)
Definition appends_zeros s s' : Prop :=
  grows_by_zeros (train_loss_per_round s) (train_loss_per_round s') ∧
  grows_by_zeros (train_accuracy_per_round s) (train_accuracy_per_round s') ∧
  grows_by_zeros (test_loss_per_round s) (test_loss_per_round s') ∧
  grows_by_zeros (test_accuracy_per_round s) (test_accuracy_per_round s').

(** The train/test accumulators still hold their initial [0.0]. *)
Definition untouched t : Prop :=
  total_train_loss t = fzero ∧ total_train_accuracy t = fzero ∧
  total_test_loss t = fzero ∧ total_test_accuracy t = fzero.

(** Every series of [s'] starts with the corresponding series of [s]. *)
Definition store_extends s s' : Prop :=
  loss_per_round s `prefix_of` loss_per_round s' ∧
  accuracy_per_round s `prefix_of` accuracy_per_round s' ∧
  train_loss_per_round s `prefix_of` train_loss_per_round s' ∧
  train_accuracy_per_round s `prefix_of` train_accuracy_per_round s' ∧
  test_loss_per_round s `prefix_of` test_loss_per_round s' ∧
  test_accuracy_per_round s `prefix_of` test_accuracy_per_round s'.

(** The first OK report, if any, has a positive sample count. *)
Definition first_count_positive results : Prop :=
  ∀ entry, head (ok_reports results) = Some entry → 0 < num_examples entry.2.

End EvaluateVocabulary.

Section FitVocabulary.
Context {PF : PyFloat} {TS : TenSEAL} {SZ : Serializers}.

Implicit Types (results : list (ClientProxy * FitRes)).

(** What one payload contributes to [sample_weights], if anything. *)
Definition decrypts (w : Tensor) : option (list pyfloat) :=
  as_bytes w ≫= try_decrypt.

(** The payloads of all clients of the round, in order. *)
Definition round_payloads results : list Tensor :=
  flat_map (λ entry,
              match parameters entry.2 with
              | IsParameters p => tensors p
              | NotParameters => []
              end) results.

(** The parameters object the aggregator looks at (line 46). *)
Definition first_parameters results : option ParametersObj :=
  head (map (λ entry, parameters entry.2) results).

(** The secure aggregator of the specification (section 4.3): the mean of
    the successfully decrypted vectors of all clients, re-encrypted under
    the server context, or no update when nothing decrypts. *)
Definition spec_aggregate_fit results
  : result (option Parameters * gmap string pyfloat) :=
  match omap decrypts (round_payloads results) with
  | [] => Ok (None, ∅)
  | vectors =>
      match torch_mean_stack vectors with
      | Raise e => Raise e
      | Ok mean =>
          Ok (Some (ndarrays_to_parameters
                      [vector_serialize (ckks_vector server_context mean)]), ∅)
      end
  end.

(** The part of TenSEAL's documented behaviour that the export of the
    public context relies on. *)
Class TenSEALContract : Prop := {
  (* a fresh context holds a key pair *)
  ts_context_public n l : has_public_key (ts_context n l) = true;
  (* setting the scale keeps the keys *)
  set_global_scale_public c z :
    has_public_key (set_global_scale c z) = has_public_key c;
  (* generating Galois keys adds them and keeps the public key *)
  generate_galois_keys_public c :
    has_public_key (generate_galois_keys c) = has_public_key c;
  generate_galois_keys_galois c :
    has_galois_keys (generate_galois_keys c) = true;
  (* serialize(save_secret_key=False) loads back as a context with the same
     parameters, public and Galois keys, and without a secret key *)
  public_serialize_load c :
    ∃ c', context_from (context_serialize c false) = Ok c' ∧
          encryption_parameters c' = encryption_parameters c ∧
          has_public_key c' = has_public_key c ∧
          has_galois_keys c' = has_galois_keys c ∧
          has_secret_key c' = false;
  (* decrypt() with a context that holds no secret key raises ValueError *)
  decrypt_without_secret_key c v :
    has_secret_key c = false → decrypt c v = Raise ValueError
}.

(** The vectors the loop of lines 54-66 collects: the decrypted tensors of
    the first entry's parameters. *)
Definition first_decrypted results : list (list pyfloat) :=
  match first_parameters results with
  | Some (IsParameters p) => omap decrypts (tensors p)
  | _ => []
  end.

(** All vectors have the same number of elements. *)
Definition same_size (vectors : list (list pyfloat)) : Prop :=
  ∀ u v, u ∈ vectors → v ∈ vectors → length u = length v.

End FitVocabulary.

(** * Instances used to run the model *)

Module Toy.

(** Exact rational arithmetic, results kept in lowest terms. *)
#[export] Instance Qfloat : PyFloat := {|
  pyfloat := Q;
  fzero := 0%Q;
  fadd x y := Qred (Qplus x y);
  fmul_int x n := Qred (Qmult x (inject_Z n));
  fdiv_int x n := Qred (Qdiv x (inject_Z n));
  feq := Qeq
|}.

(** A toy context: the parameters as single bytes (the poly-modulus degree
    through its base-2 logarithm) and one flag per key. *)
Record toy_context : Type := {
  log_degree : Byte.byte;
  chain : list Byte.byte;
  log_scale : Byte.byte;
  public_key : bool;
  galois_keys : bool;
  secret_key : bool
}.

Definition byte_of_Z (z : Z) : Byte.byte :=
  default Byte.x00 (Byte.of_N (Z.to_N (z mod 256))).

Definition Z_of_byte (b : Byte.byte) : Z := Z.of_N (Byte.to_N b).

Definition byte_of_bool (b : bool) : Byte.byte :=
  if b then Byte.x01 else Byte.x00.

Definition bool_of_byte (b : Byte.byte) : bool :=
  negb (Byte.eqb b Byte.x00).

Definition toy_serialize (c : toy_context) (save_secret_key : bool) : bytes :=
  Byte.xc7 :: log_degree c :: log_scale c ::
  byte_of_bool (public_key c) :: byte_of_bool (galois_keys c) ::
  byte_of_bool (save_secret_key && secret_key c) :: chain c.

Definition toy_context_from (data : bytes) : result toy_context :=
  match data with
  | magic :: d :: sc :: pk :: gk :: sk :: ch =>
      if Byte.eqb magic Byte.xc7 then
        Ok {| log_degree := d; chain := ch; log_scale := sc;
              public_key := bool_of_byte pk; galois_keys := bool_of_byte gk;
              secret_key := bool_of_byte sk |}
      else Raise ValueError
  | _ => Raise ValueError
  end.

(** A toy ciphertext is the vector itself; on the wire every entry takes
    two bytes, numerator and denominator, after a one-byte tag. *)
Fixpoint encode (values : list Q) : bytes :=
  match values with
  | [] => []
  | q :: rest =>
      byte_of_Z (Qnum q) :: byte_of_Z (Zpos (Qden q)) :: encode rest
  end.

Fixpoint decode (fuel : nat) (data : bytes) : result (list Q) :=
  match fuel, data with
  | _, [] => Ok []
  | S fuel', n :: d :: rest =>
      match Z_of_byte d, decode fuel' rest with
      | Zpos den, Ok values => Ok (Qred (Qmake (Z_of_byte n) den) :: values)
      | _, _ => Raise ValueError
      end
  | _, _ => Raise ValueError
  end.

Definition toy_vector_from (c : toy_context) (data : bytes)
  : result (list Q) :=
  match data with
  | tag :: payload =>
      if Byte.eqb tag Byte.xcc then decode (length payload) payload
      else Raise ValueError
  | [] => Raise ValueError
  end.

#[export] Instance SEAL : TenSEAL := {|
  context := toy_context;
  CKKSVector := list Q;
  ts_context n l :=
    {| log_degree := byte_of_Z (Z.log2 n); chain := map byte_of_Z l;
       log_scale := Byte.x00; public_key := true; galois_keys := false;
       secret_key := true |};
  set_global_scale c z :=
    {| log_degree := log_degree c; chain := chain c;
       log_scale := byte_of_Z (Z.log2 z); public_key := public_key c;
       galois_keys := galois_keys c; secret_key := secret_key c |};
  generate_galois_keys c :=
    {| log_degree := log_degree c; chain := chain c;
       log_scale := log_scale c; public_key := public_key c;
       galois_keys := true; secret_key := secret_key c |};
  context_serialize := toy_serialize;
  context_from := toy_context_from;
  encryption_parameters c :=
    (2 ^ Z_of_byte (log_degree c), map Z_of_byte (chain c));
  has_public_key := public_key;
  has_galois_keys := galois_keys;
  has_secret_key := secret_key;
  ckks_vector_from := toy_vector_from;
  decrypt c v := if secret_key c then Ok v else Raise ValueError;
  ckks_vector c values := values;
  vector_serialize v := Byte.xcc :: encode v
|}.

#[export] Instance Pickle : Serializers := {|
  pickle_dumps w := [Byte.x80; Byte.x04];
  ndarray_to_bytes b := Byte.x93 :: b
|}.

(** [ts.ckks_vector(server_context, values).serialize()]. *)
Definition encrypted (values : list Q) : Tensor :=
  TBytes (vector_serialize (ckks_vector server_context values)).

Definition malformed : Tensor := TBytes [Byte.x00; Byte.x01; Byte.x02].

Definition ok_status : Status := {| code := OK; message := "" |}.

(** A fit result whose parameters hold the given tensors. *)
Definition client_update (name : string) (payloads : list Tensor)
  : ClientProxy * FitRes :=
  ({| cid := name |},
   {| fit_status := ok_status;
      parameters := IsParameters {| tensors := payloads;
                                    tensor_type := "numpy.ndarray" |};
      fit_num_examples := 10;
      fit_metrics := ∅ |}).

(** The three updates of the specification's example, one per client. *)
Definition three_clients : list (ClientProxy * FitRes) :=
  [client_update "0" [encrypted [1%Q; 1%Q]];
   client_update "1" [encrypted [3%Q; 3%Q]];
   client_update "2" [encrypted [5%Q; 5%Q]]].

(** The same round with a malformed blob from the first client. *)
Definition one_malformed : list (ClientProxy * FitRes) :=
  [client_update "0" [malformed];
   client_update "1" [encrypted [3%Q; 3%Q]];
   client_update "2" [encrypted [5%Q; 5%Q]]].

(** The two reports of the specification's example. *)
Definition two_reports : list (ClientProxy * EvaluateRes) :=
  [report "0" OK (1 # 5)%Q (9 # 10)%Q 10; report "1" OK (2 # 5)%Q (7 # 10)%Q 30].

End Toy.

(** * Properties of [aggregate_evaluate] *)

Section EvaluateProps.
Context {PF : PyFloat}.

Implicit Types (s : metrics_store) (t : totals).
Implicit Types (results : list (ClientProxy * EvaluateRes)).

Lemma run_bind {St A B} (m : py St A) (f : A → py St B) (s : St) :
  (m ≫= f) s =
  match m s with (Ok a, s') => f a s' | (Raise e, s') => (Raise e, s') end.
Proof. reflexivity. Qed.

Lemma run_truediv_nonzero {St} (x : pyfloat) (n : Z) (s : St) :
  n ≠ 0 → truediv x n s = (Ok (fdiv_int x n), s).
Proof. intros Hn. unfold truediv. by destruct (decide (n = 0)). Qed.

Lemma run_append_train_test_nonzero t s :
  total_samples t ≠ 0 →
  append_train_test t s =
  (Ok tt,
   with_train_test s
     (fdiv_int (total_train_loss t) (total_samples t))
     (fdiv_int (total_train_accuracy t) (total_samples t))
     (fdiv_int (total_test_loss t) (total_samples t))
     (fdiv_int (total_test_accuracy t) (total_samples t))).
Proof.
  intros Hn. unfold append_train_test.
  rewrite !run_bind, !run_truediv_nonzero by done.
  rewrite !run_bind, !run_truediv_nonzero by done.
  rewrite !run_bind, !run_truediv_nonzero by done.
  rewrite !run_bind, !run_truediv_nonzero by done.
  reflexivity.
Qed.

Lemma run_append_train_test_zero t s :
  total_samples t = 0 →
  append_train_test t s = (Raise ZeroDivisionError, s).
Proof.
  intros Hn. unfold append_train_test. rewrite run_bind, Hn. reflexivity.
Qed.

Lemma run_evaluate_step_skip t (entry : ClientProxy * EvaluateRes) s :
  ¬ is_OK entry → evaluate_step t entry s = (Ok t, s).
Proof.
  intros Hc. unfold evaluate_step.
  by destruct (decide (code (status entry.2) = OK)).
Qed.

Lemma run_evaluate_step_keyerror t (entry : ClientProxy * EvaluateRes) s :
  is_OK entry →
  metrics entry.2 !! "accuracy" = None →
  evaluate_step t entry s = (Raise (KeyError "accuracy"), s).
Proof.
  intros Hc Hm. unfold evaluate_step.
  destruct (decide (code (status entry.2) = OK)); [|done].
  rewrite run_bind. unfold getitem. by rewrite Hm.
Qed.

Lemma run_evaluate_step_ok t (entry : ClientProxy * EvaluateRes) s accuracy :
  is_OK entry →
  metrics entry.2 !! "accuracy" = Some accuracy →
  evaluate_step t entry s =
  let t' := accumulate t (loss entry.2) accuracy (num_examples entry.2) in
  match append_train_test t' s with
  | (Ok _, s') => (Ok t', s')
  | (Raise e, s') => (Raise e, s')
  end.
Proof.
  intros Hc Hm. unfold evaluate_step.
  destruct (decide (code (status entry.2) = OK)) as [_|?]; [|done].
  rewrite run_bind. unfold getitem. rewrite Hm. cbn.
  rewrite run_bind.
  fold (accumulate t (loss entry.2) accuracy (num_examples entry.2)).
  by destruct (append_train_test _ s) as [[[]|e] s'].
Qed.

(** *** The loop, when no iteration raises *)

Lemma after_loop_nil s : after_loop s [] = s.
Proof. destruct s. unfold after_loop. cbn. by rewrite !app_nil_r. Qed.

Lemma after_loop_cons s t ts :
  after_loop
    (with_train_test s
       (fdiv_int (total_train_loss t) (total_samples t))
       (fdiv_int (total_train_accuracy t) (total_samples t))
       (fdiv_int (total_test_loss t) (total_samples t))
       (fdiv_int (total_test_accuracy t) (total_samples t))) ts =
  after_loop s (t :: ts).
Proof. unfold after_loop, with_train_test. cbn. by rewrite <- !app_assoc. Qed.

Lemma run_loop_safe results : ∀ t s,
  Forall has_accuracy (ok_reports results) →
  Forall (λ t', total_samples t' ≠ 0) (running t results) →
  for_each evaluate_step t results s =
  (Ok (final_totals t results), after_loop s (running t results)).
Proof.
  induction results as [|entry rest IH]; intros t s Hacc Hrun; cbn.
  - by rewrite after_loop_nil.
  - unfold ok_reports in Hacc. cbn in Hrun.
    rewrite run_bind.
    destruct (decide (is_OK entry)) as [Hok|Hno].
    + rewrite filter_cons_True in Hacc by done.
      apply Forall_cons in Hacc as [[acc Hm] Hacc].
      apply Forall_cons in Hrun as [Hnz Hrun].
      unfold accuracy_of in *. rewrite Hm in *. cbn in *.
      rewrite (run_evaluate_step_ok _ _ _ acc) by done. cbn zeta.
      rewrite run_append_train_test_nonzero by done.
      rewrite IH by done. by rewrite after_loop_cons.
    + rewrite filter_cons_False in Hacc by done.
      rewrite run_evaluate_step_skip by done. by apply IH.
Qed.

Lemma final_totals_spec results : ∀ t,
  total_loss (final_totals t results) =
    foldl (λ acc entry, fadd acc (fmul_int (loss entry.2) (num_examples entry.2)))
          (total_loss t) (ok_reports results) ∧
  total_accuracy (final_totals t results) =
    foldl (λ acc entry,
             fadd acc (fmul_int (accuracy_of entry.2) (num_examples entry.2)))
          (total_accuracy t) (ok_reports results) ∧
  total_samples (final_totals t results) =
    foldl (λ n entry, n + num_examples entry.2)
          (total_samples t) (ok_reports results) ∧
  total_train_loss (final_totals t results) = total_train_loss t ∧
  total_train_accuracy (final_totals t results) = total_train_accuracy t ∧
  total_test_loss (final_totals t results) = total_test_loss t ∧
  total_test_accuracy (final_totals t results) = total_test_accuracy t.
Proof.
  unfold final_totals, ok_reports.
  induction results as [|entry rest IH]; intros t; [done|].
  cbn [foldl]. destruct (decide (is_OK entry)) as [Hok|Hno].
  - rewrite filter_cons_True by done. cbn [foldl].
    apply (IH (accumulate _ _ _ _)).
  - rewrite filter_cons_False by done. apply IH.
Qed.

Lemma running_length results : ∀ t,
  length (running t results) = length (ok_reports results).
Proof.
  unfold ok_reports.
  induction results as [|entry rest IH]; intros t; [done|].
  cbn [running]. destruct (decide (is_OK entry)).
  - rewrite filter_cons_True by done. cbn [length]. by rewrite IH.
  - rewrite filter_cons_False by done. apply IH.
Qed.

(** The weighted means are returned and appended whenever the loop goes
    through: every OK report carries an accuracy and leaves a non-zero
    running sample count.  On these rounds the code computes the figures of
    the specification. *)
Lemma run_aggregate_evaluate_safe rnd results failures s :
  Forall has_accuracy (ok_reports results) →
  Forall (λ t', total_samples t' ≠ 0) (running totals0 results) →
  sample_count (ok_reports results) > 0 →
  let avg_loss := fdiv_int (weighted_sum loss (ok_reports results))
                    (sample_count (ok_reports results)) in
  let avg_accuracy := fdiv_int (weighted_sum accuracy_of (ok_reports results))
                        (sample_count (ok_reports results)) in
  aggregate_evaluate rnd results failures s =
  (Ok (avg_loss, {[ "accuracy" := avg_accuracy ]}),
   after_round s avg_loss avg_accuracy (running totals0 results)
     (final_totals totals0 results)).
Proof.
  intros Hacc Hrun Hpos.
  destruct (final_totals_spec results totals0)
    as (Hl & Ha & Hn & _).
  change (total_loss totals0) with fzero in Hl.
  change (total_accuracy totals0) with fzero in Ha.
  change (total_samples totals0) with 0 in Hn.
  fold (weighted_sum loss (ok_reports results)) in Hl.
  fold (weighted_sum accuracy_of (ok_reports results)) in Ha.
  fold (sample_count (ok_reports results)) in Hn.
  cbn zeta. unfold aggregate_evaluate.
  rewrite run_bind, run_loop_safe by done.
  rewrite Hn. destruct (decide (sample_count (ok_reports results) > 0)); [|done].
  rewrite run_bind, run_truediv_nonzero by lia.
  rewrite run_bind, run_truediv_nonzero by lia.
  rewrite run_bind. cbn -[append_train_test].
  rewrite run_bind. cbn -[append_train_test].
  rewrite run_bind, run_append_train_test_nonzero by (rewrite Hn; lia).
  rewrite Hl, Ha, Hn. cbn. unfold after_round, with_train_test. cbn.
  rewrite !map_app, !app_assoc. cbn. rewrite !Hn. reflexivity.
Qed.

Lemma aggregate_evaluate_meets_spec rnd results failures s :
  Forall has_accuracy (ok_reports results) →
  Forall (λ t', total_samples t' ≠ 0) (running totals0 results) →
  sample_count (ok_reports results) > 0 →
  (aggregate_evaluate rnd results failures s).1 =
  Ok (spec_aggregate_evaluate results).
Proof.
  intros Hacc Hrun Hpos.
  rewrite run_aggregate_evaluate_safe by done. unfold spec_aggregate_evaluate.
  by destruct (decide (sample_count (ok_reports results) > 0)).
Qed.

(** A round without OK reports takes the fallback of line 127 and leaves
    the series alone. *)
Lemma aggregate_evaluate_no_ok_report rnd results failures s :
  ok_reports results = [] →
  aggregate_evaluate rnd results failures s =
  (Ok (fzero, {[ "accuracy" := fzero ]}), s).
Proof.
  intros Hnone.
  assert (running totals0 results = []) as Hrun.
  { apply length_zero_iff_nil. by rewrite running_length, Hnone. }
  destruct (final_totals_spec results totals0) as (_ & _ & Hn & _).
  rewrite Hnone in Hn. cbn in Hn.
  unfold aggregate_evaluate.
  rewrite run_bind, run_loop_safe; rewrite ?Hnone, ?Hrun; try done.
  rewrite Hn, after_loop_nil. reflexivity.
Qed.

(** An OK report that brings the running sample count to zero makes the
    division of line 93 raise; nothing has been appended for it. *)
Lemma first_ok_report_zero_raises rnd entry rest failures s :
  is_OK entry → has_accuracy entry → num_examples entry.2 = 0 →
  aggregate_evaluate rnd (entry :: rest) failures s =
  (Raise ZeroDivisionError, s).
Proof.
  intros Hok [acc Hm] Hz. unfold aggregate_evaluate. cbn [for_each].
  rewrite !run_bind, (run_evaluate_step_ok _ _ _ acc) by done. cbn zeta.
  rewrite run_append_train_test_zero; [done|]. cbn. by rewrite Hz.
Qed.

Lemma running_cons_OK t entry rest :
  is_OK entry →
  running t (entry :: rest) =
  let t' := accumulate t (loss entry.2) (accuracy_of entry.2)
              (num_examples entry.2) in
  t' :: running t' rest.
Proof. intros Hok. cbn [running]. by destruct (decide (is_OK entry)). Qed.

Lemma report_has_accuracy name c l a n : has_accuracy (report name c l a n).
Proof. exists a. cbn. apply lookup_singleton_eq. Qed.

(** C3.  The claim: whenever some report is OK and the total sample count
    is positive, the sample-weighted means over the OK reports are returned
    and appended.  The code at a round the claim covers: a first OK report
    with [num_examples = 0] followed by an OK report with thirty samples has
    a positive total, yet the call raises [ZeroDivisionError] at line 93 and
    appends nothing. *)
Theorem aggregate_evaluate_raises_on_leading_empty_report
    rnd l1 a1 l2 a2 failures s :
  let results := [report "0" OK l1 a1 0; report "1" OK l2 a2 30] in
  ok_reports results = results ∧
  sample_count (ok_reports results) = 30 ∧
  aggregate_evaluate rnd results failures s = (Raise ZeroDivisionError, s).
Proof.
  cbn zeta. split_and!; [done | done |].
  apply first_ok_report_zero_raises; [done | apply report_has_accuracy | done].
Qed.

(** C4.  The claim: a round whose OK reports all have zero [num_examples]
    returns [(0.0, {accuracy: 0.0})] and raises nothing.  The code on one OK
    report with [num_examples = 0]: [ZeroDivisionError] from the division of
    line 93, before the guard of line 104 is reached. *)
Theorem aggregate_evaluate_zero_samples_raises rnd l a failures s :
  let results := [report "0" OK l a 0] in
  Forall (λ entry, num_examples entry.2 = 0) (ok_reports results) ∧
  aggregate_evaluate rnd results failures s = (Raise ZeroDivisionError, s) ∧
  aggregate_evaluate rnd results failures s ≠
    (Ok (fzero, {[ "accuracy" := fzero ]}), s).
Proof.
  cbn zeta.
  assert (aggregate_evaluate rnd [report "0" OK l a 0] failures s =
          (Raise ZeroDivisionError, s)) as Hraise.
  { apply first_ok_report_zero_raises;
      [done | apply report_has_accuracy | done]. }
  split_and!; [by repeat constructor | done | by rewrite Hraise].
Qed.

(** *** The loss and accuracy series *)

(** The loop never touches the loss and accuracy series. *)
Lemma append_train_test_headline t s :
  loss_per_round (append_train_test t s).2 = loss_per_round s ∧
  accuracy_per_round (append_train_test t s).2 = accuracy_per_round s.
Proof.
  destruct (decide (total_samples t = 0)) as [Hz|Hnz].
  - by rewrite run_append_train_test_zero.
  - by rewrite run_append_train_test_nonzero.
Qed.

Lemma evaluate_step_headline t entry s :
  loss_per_round (evaluate_step t entry s).2 = loss_per_round s ∧
  accuracy_per_round (evaluate_step t entry s).2 = accuracy_per_round s.
Proof.
  destruct (decide (is_OK entry)) as [Hok|Hno].
  - destruct (metrics entry.2 !! "accuracy") as [acc|] eqn:Hm.
    + rewrite (run_evaluate_step_ok _ _ _ acc) by done. cbn zeta.
      set (t1 := accumulate _ _ _ _).
      pose proof (append_train_test_headline t1 s) as Hk.
      by destruct (append_train_test t1 s) as [[[]|e] s1].
    + by rewrite run_evaluate_step_keyerror.
  - by rewrite run_evaluate_step_skip.
Qed.

Lemma loop_headline results : ∀ t s,
  loss_per_round (for_each evaluate_step t results s).2 = loss_per_round s ∧
  accuracy_per_round (for_each evaluate_step t results s).2 =
    accuracy_per_round s.
Proof.
  induction results as [|entry rest IH]; intros t s; cbn [for_each]; [done|].
  rewrite run_bind.
  pose proof (evaluate_step_headline t entry s) as [Hl Ha].
  destruct (evaluate_step t entry s) as [[t1|e] s1]; cbn in *; [|done].
  destruct (IH t1 s1) as [Hl' Ha']. by rewrite Hl', Ha'.
Qed.

(** Whatever the reports, a call leaves the loss and accuracy series as
    they were or appends one element to each. *)
Lemma loss_accuracy_at_most_once rnd results failures s :
  let s' := (aggregate_evaluate rnd results failures s).2 in
  (loss_per_round s' = loss_per_round s ∧
   accuracy_per_round s' = accuracy_per_round s) ∨
  (∃ x y, loss_per_round s' = loss_per_round s ++ [x] ∧
          accuracy_per_round s' = accuracy_per_round s ++ [y]).
Proof.
  cbn zeta. unfold aggregate_evaluate. rewrite run_bind.
  pose proof (loop_headline results totals0 s) as [Hl Ha].
  destruct (for_each evaluate_step totals0 results s) as [[t|e] s1];
    cbn in *; [|by left].
  destruct (decide (total_samples t > 0)); [|by left].
  rewrite run_bind, run_truediv_nonzero by lia.
  rewrite run_bind, run_truediv_nonzero by lia.
  rewrite run_bind. cbn -[append_train_test].
  rewrite run_bind. cbn -[append_train_test].
  rewrite run_bind.
  set (s2 := {| loss_per_round := _ |}).
  pose proof (append_train_test_headline t s2) as [Hl2 Ha2].
  right. do 2 eexists.
  destruct (append_train_test t s2) as [[[]|e] s3]; cbn in *;
    rewrite Hl2, Ha2, Hl, Ha; done.
Qed.

(** C8.  The claim: one call adds at most one element to each series.  The
    code on two OK reports with ten and thirty samples: the loss and
    accuracy series grow by one element, each train and test series by
    three (one per OK report at lines 98-101, one more at lines 116-119). *)
Theorem aggregate_evaluate_appends_per_report rnd l1 a1 l2 a2 failures s :
  let results := [report "0" OK l1 a1 10; report "1" OK l2 a2 30] in
  let s' := (aggregate_evaluate rnd results failures s).2 in
  length (loss_per_round s') = S (length (loss_per_round s)) ∧
  length (accuracy_per_round s') = S (length (accuracy_per_round s)) ∧
  length (train_loss_per_round s') = S (S (S (length (train_loss_per_round s)))) ∧
  length (train_accuracy_per_round s') =
    S (S (S (length (train_accuracy_per_round s)))) ∧
  length (test_loss_per_round s') = S (S (S (length (test_loss_per_round s)))) ∧
  length (test_accuracy_per_round s') =
    S (S (S (length (test_accuracy_per_round s)))).
Proof.
  cbn zeta.
  set (results := [report "0" OK l1 a1 10; report "1" OK l2 a2 30]).
  assert (ok_reports results = results) as Hok by done.
  assert (running totals0 results =
          [accumulate totals0 l1 a1 10;
           accumulate (accumulate totals0 l1 a1 10) l2 a2 30]) as Hrun.
  { unfold results. rewrite !running_cons_OK by done.
    unfold accuracy_of. cbn. by rewrite !lookup_singleton_eq. }
  rewrite run_aggregate_evaluate_safe.
  - rewrite Hrun. cbn. rewrite !length_app. cbn. split_and!; lia.
  - rewrite Hok. repeat constructor; apply report_has_accuracy.
  - rewrite Hrun. repeat constructor; cbn; lia.
  - rewrite Hok. cbn. lia.
Qed.

(** *** Values entering the train and test series *)

Lemma grows_by_zeros_refl l : grows_by_zeros l l.
Proof. exists []. by rewrite app_nil_r. Qed.

Lemma grows_by_zeros_trans l1 l2 l3 :
  grows_by_zeros l1 l2 → grows_by_zeros l2 l3 → grows_by_zeros l1 l3.
Proof.
  intros (zs1 & -> & H1) (zs2 & -> & H2). exists (zs1 ++ zs2).
  split; [by rewrite app_assoc | by apply Forall_app].
Qed.

Lemma grows_by_zeros_snoc l z : is_zero z → grows_by_zeros l (l ++ [z]).
Proof. intros Hz. exists [z]. split; [done | by constructor]. Qed.

Lemma appends_zeros_refl s : appends_zeros s s.
Proof. repeat split; apply grows_by_zeros_refl. Qed.

Lemma appends_zeros_trans s1 s2 s3 :
  appends_zeros s1 s2 → appends_zeros s2 s3 → appends_zeros s1 s3.
Proof.
  intros (?&?&?&?) (?&?&?&?).
  repeat split; eapply grows_by_zeros_trans; eauto.
Qed.

Section TrainTestZero.
(** [0.0 / n == 0.0] for every non-zero int [n]. *)
Hypothesis zero_div : ∀ n : Z, n ≠ 0 → feq (fdiv_int fzero n) fzero.

Lemma append_train_test_zeros t s :
  untouched t → appends_zeros s (append_train_test t s).2.
Proof.
  intros (H1 & H2 & H3 & H4).
  destruct (decide (total_samples t = 0)) as [Hz|Hnz].
  - rewrite run_append_train_test_zero by done. apply appends_zeros_refl.
  - rewrite run_append_train_test_nonzero by done.
    rewrite H1, H2, H3, H4. cbn.
    repeat split; apply grows_by_zeros_snoc; by apply zero_div.
Qed.

Lemma evaluate_step_zeros t entry s :
  untouched t →
  appends_zeros s (evaluate_step t entry s).2 ∧
  ∀ t', (evaluate_step t entry s).1 = Ok t' → untouched t'.
Proof.
  intros Hu.
  destruct (decide (is_OK entry)) as [Hok|Hno].
  - destruct (metrics entry.2 !! "accuracy") as [acc|] eqn:Hm.
    + rewrite (run_evaluate_step_ok _ _ _ acc) by done. cbn zeta.
      set (t1 := accumulate _ _ _ _).
      assert (untouched t1) as Hu1 by exact Hu.
      pose proof (append_train_test_zeros t1 s Hu1) as Hz.
      destruct (append_train_test t1 s) as [[[]|e] s1]; cbn in *.
      * split; [done|]. by intros t' [= <-].
      * split; [done|]. by intros t' [=].
    + rewrite run_evaluate_step_keyerror by done. cbn.
      split; [apply appends_zeros_refl | by intros t' [=]].
  - rewrite run_evaluate_step_skip by done. cbn.
    split; [apply appends_zeros_refl | by intros t' [= <-]].
Qed.

Lemma loop_zeros results : ∀ t s,
  untouched t →
  appends_zeros s (for_each evaluate_step t results s).2 ∧
  ∀ t', (for_each evaluate_step t results s).1 = Ok t' → untouched t'.
Proof.
  induction results as [|entry rest IH]; intros t s Hu; cbn [for_each].
  - cbn. split; [apply appends_zeros_refl | by intros t' [= <-]].
  - rewrite run_bind.
    destruct (evaluate_step_zeros t entry s Hu) as [Hz Ht].
    destruct (evaluate_step t entry s) as [[t1|e] s1]; cbn in *.
    + destruct (IH t1 s1 (Ht _ eq_refl)) as [Hz' Ht'].
      split; [by eapply appends_zeros_trans | done].
    + split; [done | by intros t' [=]].
Qed.

(** C7.  No statement of [aggregate_evaluate] adds to a train or test
    accumulator, so every value a call appends to the train-loss,
    train-accuracy, test-loss and test-accuracy series is [0.0 / n] for a
    non-zero [n], hence equal to [0.0]: after the call each of the four
    series is the series before the call followed by zeros only (whether
    the call returns or raises). *)
Theorem train_test_series_only_zeros rnd results failures s :
  appends_zeros s (aggregate_evaluate rnd results failures s).2.
Proof.
  unfold aggregate_evaluate. rewrite run_bind.
  assert (untouched totals0) as Hu0 by done.
  destruct (loop_zeros results totals0 s Hu0) as [Hz Ht].
  destruct (for_each evaluate_step totals0 results s) as [[t|e] s1];
    cbn in *; [|done].
  specialize (Ht _ eq_refl).
  destruct (decide (total_samples t > 0)); [|done].
  rewrite run_bind, run_truediv_nonzero by lia.
  rewrite run_bind, run_truediv_nonzero by lia.
  rewrite run_bind. cbn -[append_train_test].
  rewrite run_bind. cbn -[append_train_test].
  rewrite run_bind.
  set (s2 := {| loss_per_round := _ |}).
  pose proof (append_train_test_zeros t s2 Ht) as Hz2.
  assert (appends_zeros s s2) as Hz12 by exact Hz.
  destruct (append_train_test t s2) as [[[]|e] s3]; cbn in *;
    by eapply appends_zeros_trans.
Qed.

End TrainTestZero.

End EvaluateProps.

(** * Properties of [aggregate_fit] and of the exported context *)

Section FitProps.
Context {PF : PyFloat} {TS : TenSEAL} {SZ : Serializers}.

Implicit Types (results : list (ClientProxy * FitRes)).

(** The loop of lines 54-66 keeps exactly the payloads that decrypt, in
    order: a payload that is of an unsupported type, is malformed or fails
    to decrypt is skipped and the loop goes on. *)
Lemma loop_keeps_decrypted weights : ∀ sample_weights,
  fold_left fit_step weights sample_weights =
  sample_weights ++ omap decrypts weights.
Proof.
  induction weights as [|w ws IH]; intros acc; cbn.
  - by rewrite app_nil_r.
  - rewrite IH. unfold fit_step, decrypts.
    destruct (as_bytes w) as [b|]; cbn; [|done].
    destruct (try_decrypt b); cbn; [|done]. by rewrite <- app_assoc.
Qed.

Lemma omap_all_None {A B} (f : A → option B) (l : list A) :
  Forall (λ x, f x = None) l → omap f l = [].
Proof.
  induction 1 as [|x l Hx _ IH]; cbn; [done|]. by rewrite Hx.
Qed.

(** [aggregate_fit] in terms of the first entry's tensors. *)
Lemma aggregate_fit_first rnd c fr rest failures p :
  parameters fr = IsParameters p →
  aggregate_fit rnd ((c, fr) :: rest) failures =
  match omap decrypts (tensors p) with
  | [] => Ok (None, ∅)
  | vectors =>
      match torch_mean_stack vectors with
      | Raise e => Raise e
      | Ok mean =>
          Ok (Some (ndarrays_to_parameters
                      [vector_serialize (ckks_vector server_context mean)]), ∅)
      end
  end.
Proof.
  intros Hp. unfold aggregate_fit. cbn. rewrite Hp.
  rewrite loop_keeps_decrypted. cbn.
  by destruct (omap decrypts (tensors p)).
Qed.

(** On a round with a single client the code is the aggregator of the
    specification. *)
Lemma aggregate_fit_single_client rnd entry failures :
  aggregate_fit rnd [entry] failures = spec_aggregate_fit [entry].
Proof.
  destruct entry as [c fr].
  destruct (parameters fr) as [p|] eqn:Hp.
  - rewrite (aggregate_fit_first _ _ _ _ _ p) by done.
    unfold spec_aggregate_fit, round_payloads. cbn.
    by rewrite Hp, app_nil_r.
  - unfold aggregate_fit, spec_aggregate_fit, round_payloads. cbn.
    by rewrite Hp.
Qed.

(** C5.  An empty set of client updates, and a first entry whose
    [parameters] is not a [Parameters] object, both make [aggregate_fit]
    return the no-update result [(None, {})]; the payloads are not looked
    at and nothing is raised. *)
Theorem aggregate_fit_rejects_unusable_input rnd results failures :
  results = [] ∨ first_parameters results = Some NotParameters →
  aggregate_fit rnd results failures = Ok (None, ∅).
Proof.
  intros [-> | Hfirst]; [done|].
  destruct results as [|[c fr] rest]; [done|].
  cbn in Hfirst. injection Hfirst as Hfirst.
  unfold aggregate_fit. cbn. by rewrite Hfirst.
Qed.

(** C6.  For a non-empty update set in which no payload of any client
    decrypts, [aggregate_fit] returns the no-update result [(None, {})]
    and does not raise. *)
Theorem aggregate_fit_nothing_decrypts rnd results failures :
  results ≠ [] →
  Forall (λ w, decrypts w = None) (round_payloads results) →
  aggregate_fit rnd results failures = Ok (None, ∅).
Proof.
  intros Hne Hall.
  destruct results as [|[c fr] rest]; [done|].
  destruct (parameters fr) as [p|] eqn:Hp.
  - rewrite (aggregate_fit_first _ _ _ _ _ p) by done.
    unfold round_payloads in Hall. cbn in Hall. rewrite Hp in Hall.
    apply Forall_app in Hall as [Hfirst _].
    by rewrite omap_all_None.
  - unfold aggregate_fit. cbn. by rewrite Hp.
Qed.

(** C10.  The result of [aggregate_fit] is determined by the parameters of
    the first entry of the results list: two non-empty lists whose first
    entries have equal parameters give equal results, whatever the round
    number, the later entries and the failures are. *)
Theorem aggregate_fit_depends_on_first_entry
    rnd1 rnd2 results1 results2 failures1 failures2 :
  results1 ≠ [] → results2 ≠ [] →
  first_parameters results1 = first_parameters results2 →
  aggregate_fit rnd1 results1 failures1 = aggregate_fit rnd2 results2 failures2.
Proof.
  intros Hne1 Hne2 Hfirst.
  destruct results1 as [|[c1 fr1] rest1]; [done|].
  destruct results2 as [|[c2 fr2] rest2]; [done|].
  cbn in Hfirst. injection Hfirst as Hfirst.
  unfold aggregate_fit. cbn. by rewrite Hfirst.
Qed.

(** *** The exported context *)

Section PublicSnapshot.
Context {contract : TenSEALContract}.

Lemma server_context_public : has_public_key server_context = true.
Proof.
  unfold server_context, create_ckks_context.
  by rewrite generate_galois_keys_public, set_global_scale_public,
    ts_context_public.
Qed.

Lemma server_context_galois : has_galois_keys server_context = true.
Proof.
  unfold server_context, create_ckks_context.
  apply generate_galois_keys_galois.
Qed.

(** C9.  The snapshot written to [ckks_context.tenseal] loads back as a
    context with the encryption parameters of the server context, its
    public key and its Galois keys, and without a secret key; decrypting
    with that context alone raises. *)
Theorem public_snapshot_cannot_decrypt :
  ∃ c, context_from ckks_context_tenseal = Ok c ∧
       encryption_parameters c = encryption_parameters server_context ∧
       has_public_key c = true ∧
       has_galois_keys c = true ∧
       has_secret_key c = false ∧
       ∀ v, decrypt c v = Raise ValueError.
Proof.
  destruct (public_serialize_load server_context)
    as (c & Hload & Hparams & Hpub & Hgal & Hsec).
  exists c. split_and!; try done.
  - by rewrite Hpub, server_context_public.
  - by rewrite Hgal, server_context_galois.
  - intros v. by apply decrypt_without_secret_key.
Qed.

End PublicSnapshot.

End FitProps.

(** * Further properties of [aggregate_evaluate] *)

Section EvaluateMore.
Context {PF : PyFloat}.

Implicit Types (s : metrics_store) (t : totals).
Implicit Types (results : list (ClientProxy * EvaluateRes)).

Lemma loop_skips_non_ok results : ∀ t s,
  for_each evaluate_step t results s =
  for_each evaluate_step t (ok_reports results) s.
Proof.
  unfold ok_reports.
  induction results as [|entry rest IH]; intros t s; [done|].
  destruct (decide (is_OK entry)) as [Hok|Hno].
  - rewrite filter_cons_True by done. cbn [for_each]. rewrite !run_bind.
    destruct (evaluate_step t entry s) as [[t1|e] s1]; [apply IH | done].
  - rewrite filter_cons_False by done. cbn [for_each]. rewrite run_bind.
    rewrite run_evaluate_step_skip by done. apply IH.
Qed.

Lemma ok_reports_idemp results :
  ok_reports (ok_reports results) = ok_reports results.
Proof.
  unfold ok_reports. induction results as [|entry rest IH]; [done|].
  destruct (decide (is_OK entry)).
  - rewrite filter_cons_True by done. rewrite filter_cons_True by done.
    by rewrite IH.
  - by rewrite filter_cons_False by done.
Qed.

Lemma ok_reports_all_OK results : Forall is_OK (ok_reports results).
Proof.
  unfold ok_reports. induction results as [|entry rest IH]; [constructor|].
  destruct (decide (is_OK entry)).
  - rewrite filter_cons_True by done. by constructor.
  - by rewrite filter_cons_False by done.
Qed.

Lemma aggregate_evaluate_ignores_non_ok_aux rnd results failures s :
  aggregate_evaluate rnd results failures s =
  aggregate_evaluate rnd (ok_reports results) failures s.
Proof.
  unfold aggregate_evaluate. rewrite !run_bind.
  by rewrite (loop_skips_non_ok results).
Qed.

(** X1.  The outcome depends on the OK reports only: two results lists with
    the same OK reports, in the same order, give the same value or
    exception and leave the same series behind, whatever the round number,
    the failures and the reports with another status are. *)
Theorem aggregate_evaluate_ignores_non_ok
    rnd1 rnd2 results1 results2 failures1 failures2 s :
  ok_reports results1 = ok_reports results2 →
  aggregate_evaluate rnd1 results1 failures1 s =
  aggregate_evaluate rnd2 results2 failures2 s.
Proof.
  intros Hsame.
  rewrite (aggregate_evaluate_ignores_non_ok_aux rnd1 results1).
  rewrite (aggregate_evaluate_ignores_non_ok_aux rnd2 results2).
  by rewrite Hsame.
Qed.

(** X2.  When no report has status OK (in particular when there is no
    report), the call returns [(0.0, {accuracy: 0.0})] and leaves all six
    series as they were. *)
Theorem aggregate_evaluate_without_ok_reports rnd results failures s :
  Forall (λ entry, code (status entry.2) ≠ OK) results →
  aggregate_evaluate rnd results failures s =
  (Ok (fzero, {[ "accuracy" := fzero ]}), s).
Proof.
  intros Hnone. apply aggregate_evaluate_no_ok_report.
  unfold ok_reports. induction Hnone as [|entry rest Hno _ IH]; [done|].
  by rewrite filter_cons_False.
Qed.

(** X3.  An OK report without an ["accuracy"] metric, reached before any
    other OK report, makes the call raise [KeyError] at line 86; nothing
    has been appended. *)
Theorem aggregate_evaluate_missing_accuracy rnd before entry rest failures s :
  Forall (λ e, code (status e.2) ≠ OK) before →
  code (status entry.2) = OK →
  metrics entry.2 !! "accuracy" = None →
  aggregate_evaluate rnd (before ++ entry :: rest) failures s =
  (Raise (KeyError "accuracy"), s).
Proof.
  intros Hbefore Hok Hm.
  unfold aggregate_evaluate. rewrite run_bind.
  induction Hbefore as [|e0 before Hno _ IH]; cbn [app for_each].
  - rewrite run_bind. by rewrite run_evaluate_step_keyerror.
  - rewrite run_bind. rewrite run_evaluate_step_skip by done. apply IH.
Qed.

(** *** Rounds whose OK reports carry non-negative sample counts *)

Lemma sample_count_from (reports : list (ClientProxy * EvaluateRes)) : ∀ n,
  Forall (λ entry, 0 ≤ num_examples entry.2) reports →
  n ≤ foldl (λ n entry, n + num_examples entry.2) n reports.
Proof.
  induction reports as [|entry rest IH]; intros n Hall; cbn; [lia|].
  apply Forall_cons in Hall as [Hn Hall].
  specialize (IH (n + num_examples entry.2) Hall). lia.
Qed.

Lemma running_positive results : ∀ t,
  0 < total_samples t →
  Forall (λ entry, 0 ≤ num_examples entry.2) (ok_reports results) →
  Forall (λ t', total_samples t' ≠ 0) (running t results).
Proof.
  unfold ok_reports.
  induction results as [|entry rest IH]; intros t Ht Hall; [constructor|].
  cbn [running]. destruct (decide (is_OK entry)) as [Hok|Hno].
  - rewrite filter_cons_True in Hall by done.
    apply Forall_cons in Hall as [Hn Hall].
    constructor; [cbn; lia|]. apply IH; [cbn; lia | done].
  - rewrite filter_cons_False in Hall by done. by apply IH.
Qed.

(** The premises of [run_aggregate_evaluate_safe] for a round whose first
    OK report has a positive count and whose other OK reports have
    non-negative counts. *)
Lemma positive_first_count_safe results :
  ok_reports results ≠ [] →
  first_count_positive results →
  Forall (λ entry, 0 ≤ num_examples entry.2) (ok_reports results) →
  Forall (λ t', total_samples t' ≠ 0) (running totals0 (ok_reports results)) ∧
  sample_count (ok_reports results) > 0.
Proof.
  intros Hne Hfirst Hall. unfold first_count_positive in Hfirst.
  pose proof (ok_reports_all_OK results) as HOK.
  destruct (ok_reports results) as [|entry rest]; [done|].
  specialize (Hfirst entry eq_refl).
  apply Forall_cons in Hall as [_ Hall].
  apply Forall_cons in HOK as [Hok HOK].
  assert (ok_reports rest = rest) as Hrest.
  { unfold ok_reports. clear -HOK.
    induction HOK as [|e l He _ IH]; [done|].
    rewrite filter_cons_True by done. by rewrite IH. }
  split.
  - rewrite running_cons_OK by done. cbn zeta.
    constructor; [cbn; lia|].
    apply running_positive; [cbn; lia | by rewrite Hrest].
  - unfold sample_count. cbn [foldl].
    pose proof (sample_count_from rest (0 + num_examples entry.2) Hall). lia.
Qed.

(** X4.  If every OK report carries an accuracy and a positive sample
    count, and there is at least one, the call returns the sample-weighted
    mean loss and, under ["accuracy"], the sample-weighted mean accuracy of
    the OK reports, and appends exactly these two values to the loss and
    accuracy series. *)
Theorem aggregate_evaluate_weighted_means rnd results failures s :
  ok_reports results ≠ [] →
  Forall (λ entry, has_accuracy entry ∧ 0 < num_examples entry.2)
         (ok_reports results) →
  let avg_loss := fdiv_int (weighted_sum loss (ok_reports results))
                    (sample_count (ok_reports results)) in
  let avg_accuracy := fdiv_int (weighted_sum accuracy_of (ok_reports results))
                        (sample_count (ok_reports results)) in
  ∃ s', aggregate_evaluate rnd results failures s =
          (Ok (avg_loss, {[ "accuracy" := avg_accuracy ]}), s') ∧
        loss_per_round s' = loss_per_round s ++ [avg_loss] ∧
        accuracy_per_round s' = accuracy_per_round s ++ [avg_accuracy].
Proof.
  intros Hne Hall. cbn zeta.
  assert (Forall has_accuracy (ok_reports results)) as Hacc.
  { eapply Forall_impl; [exact Hall|]. by intros e [? _]. }
  assert (Forall (λ e, 0 ≤ num_examples e.2) (ok_reports results)) as Hnn.
  { eapply Forall_impl; [exact Hall|]. intros e [_ ?]. lia. }
  assert (first_count_positive results) as Hfirst.
  { intros entry Hhead. apply head_Some_elem_of in Hhead.
    rewrite Forall_forall in Hall. by apply Hall. }
  destruct (positive_first_count_safe results Hne Hfirst Hnn) as [Hrun Hpos].
  rewrite aggregate_evaluate_ignores_non_ok_aux.
  rewrite run_aggregate_evaluate_safe; rewrite ?ok_reports_idemp; try done.
  eexists. split; [reflexivity|]. done.
Qed.

(** X5.  On such a round with [k] OK reports, each of the four train and
    test series grows by [k + 1] entries: one per OK report from the loop
    and one from the final block. *)
Theorem aggregate_evaluate_train_test_growth rnd results failures s :
  ok_reports results ≠ [] →
  Forall (λ entry, has_accuracy entry ∧ 0 < num_examples entry.2)
         (ok_reports results) →
  let s' := (aggregate_evaluate rnd results failures s).2 in
  let k := length (ok_reports results) in
  length (train_loss_per_round s') =
    (length (train_loss_per_round s) + k + 1)%nat ∧
  length (train_accuracy_per_round s') =
    (length (train_accuracy_per_round s) + k + 1)%nat ∧
  length (test_loss_per_round s') =
    (length (test_loss_per_round s) + k + 1)%nat ∧
  length (test_accuracy_per_round s') =
    (length (test_accuracy_per_round s) + k + 1)%nat.
Proof.
  intros Hne Hall. cbn zeta.
  assert (Forall has_accuracy (ok_reports results)) as Hacc.
  { eapply Forall_impl; [exact Hall|]. by intros e [? _]. }
  assert (Forall (λ e, 0 ≤ num_examples e.2) (ok_reports results)) as Hnn.
  { eapply Forall_impl; [exact Hall|]. intros e [_ ?]. lia. }
  assert (first_count_positive results) as Hfirst.
  { intros entry Hhead. apply head_Some_elem_of in Hhead.
    rewrite Forall_forall in Hall. by apply Hall. }
  destruct (positive_first_count_safe results Hne Hfirst Hnn) as [Hrun Hpos].
  rewrite aggregate_evaluate_ignores_non_ok_aux.
  rewrite run_aggregate_evaluate_safe; rewrite ?ok_reports_idemp; try done.
  cbn. rewrite !length_app, !length_map, !length_app, !running_length.
  rewrite ok_reports_idemp. cbn. split_and!; lia.
Qed.

(** *** Exceptions *)




(** X7.  For OK reports that carry an accuracy and a non-negative sample
    count, the call returns a value exactly when the first OK report, if
    there is one, has a positive count; otherwise it raises
    [ZeroDivisionError] with all series unchanged. *)
Theorem aggregate_evaluate_returns_iff rnd results failures s :
  Forall (λ entry, has_accuracy entry ∧ 0 ≤ num_examples entry.2)
         (ok_reports results) →
  (first_count_positive results →
   ∃ v, (aggregate_evaluate rnd results failures s).1 = Ok v) ∧
  (¬ first_count_positive results →
   aggregate_evaluate rnd results failures s = (Raise ZeroDivisionError, s)).
Proof.
  intros Hall.
  assert (Forall has_accuracy (ok_reports results)) as Hacc.
  { eapply Forall_impl; [exact Hall|]. by intros e [? _]. }
  assert (Forall (λ e, 0 ≤ num_examples e.2) (ok_reports results)) as Hnn.
  { eapply Forall_impl; [exact Hall|]. by intros e [_ ?]. }
  split.
  - intros Hfirst. destruct (ok_reports results) as [|e0 l0] eqn:Hoks.
    + rewrite aggregate_evaluate_no_ok_report by done. by eexists.
    + assert (ok_reports results ≠ []) as Hne by by rewrite Hoks.
      rewrite <- Hoks in Hacc, Hnn.
      destruct (positive_first_count_safe results Hne Hfirst Hnn)
        as [Hrun Hpos].
      rewrite aggregate_evaluate_ignores_non_ok_aux.
      rewrite run_aggregate_evaluate_safe; rewrite ?ok_reports_idemp;
        try done.
      by eexists.
  - intros Hnot. unfold first_count_positive in Hnot.
    pose proof (ok_reports_all_OK results) as HOK.
    rewrite aggregate_evaluate_ignores_non_ok_aux.
    destruct (ok_reports results) as [|entry rest].
    + exfalso. apply Hnot. by intros entry [=].
    + apply Forall_cons in Hall as [[Hacc0 Hn0] _].
      apply Forall_cons in HOK as [Hok _].
      apply first_ok_report_zero_raises; [done | done |].
      destruct (decide (num_examples entry.2 = 0)) as [|Hnz]; [done|].
      exfalso. apply Hnot. intros e [= <-]. lia.
Qed.

(** *** What a call does to the series *)

Lemma append_train_test_extends t s :
  store_extends s (append_train_test t s).2.
Proof.
  destruct (decide (total_samples t = 0)) as [Hz|Hnz].
  - rewrite run_append_train_test_zero by done. by repeat split.
  - rewrite run_append_train_test_nonzero by done. cbn.
    repeat split; cbn; try done; by apply prefix_app_r.
Qed.

Lemma store_extends_trans s1 s2 s3 :
  store_extends s1 s2 → store_extends s2 s3 → store_extends s1 s3.
Proof.
  intros (?&?&?&?&?&?) (?&?&?&?&?&?). repeat split; by etrans.
Qed.

Lemma evaluate_step_extends t entry s :
  store_extends s (evaluate_step t entry s).2.
Proof.
  destruct (decide (is_OK entry)) as [Hok|Hno].
  - destruct (metrics entry.2 !! "accuracy") as [acc|] eqn:Hm.
    + rewrite (run_evaluate_step_ok _ _ _ acc) by done. cbn zeta.
      set (t1 := accumulate _ _ _ _).
      pose proof (append_train_test_extends t1 s) as Hx.
      by destruct (append_train_test t1 s) as [[[]|e] s1].
    + rewrite run_evaluate_step_keyerror by done. by repeat split.
  - rewrite run_evaluate_step_skip by done. by repeat split.
Qed.

Lemma loop_extends results : ∀ t s,
  store_extends s (for_each evaluate_step t results s).2.
Proof.
  induction results as [|entry rest IH]; intros t s; cbn [for_each].
  - by repeat split.
  - rewrite run_bind.
    pose proof (evaluate_step_extends t entry s) as Hx.
    destruct (evaluate_step t entry s) as [[t1|e] s1]; cbn in *; [|done].
    eapply store_extends_trans; [exact Hx | apply IH].
Qed.

(** X8.  The series are append-only: whatever the reports, and whether the
    call returns or raises, each of the six series after the call starts
    with the series before the call. *)
Theorem aggregate_evaluate_append_only rnd results failures s :
  store_extends s (aggregate_evaluate rnd results failures s).2.
Proof.
  unfold aggregate_evaluate. rewrite run_bind.
  pose proof (loop_extends results totals0 s) as Hx.
  destruct (for_each evaluate_step totals0 results s) as [[t|e] s1];
    cbn in *; [|done].
  destruct (decide (total_samples t > 0)); [|done].
  rewrite run_bind, run_truediv_nonzero by lia.
  rewrite run_bind, run_truediv_nonzero by lia.
  rewrite run_bind. cbn -[append_train_test].
  rewrite run_bind. cbn -[append_train_test].
  rewrite run_bind.
  set (s2 := {| loss_per_round := _ |}).
  assert (store_extends s1 s2) as H12.
  { repeat split; cbn; try done; by apply prefix_app_r. }
  pose proof (append_train_test_extends t s2) as H23.
  destruct (append_train_test t s2) as [[[]|e] s3]; cbn in *;
    eapply store_extends_trans; eauto using store_extends_trans.
Qed.

(** X16.  What a call returns is what it appends: either it returns the
    zero pair of line 127 and leaves the loss and accuracy series alone, or
    it appends the returned loss to the loss series and the returned
    accuracy to the accuracy series, one element each. *)
Theorem aggregate_evaluate_returns_what_it_appends
    rnd results failures s v m :
  (aggregate_evaluate rnd results failures s).1 = Ok (v, m) →
  let s' := (aggregate_evaluate rnd results failures s).2 in
  (v = fzero ∧ m = {[ "accuracy" := fzero ]} ∧
   loss_per_round s' = loss_per_round s ∧
   accuracy_per_round s' = accuracy_per_round s) ∨
  (∃ a, m = {[ "accuracy" := a ]} ∧
        loss_per_round s' = loss_per_round s ++ [v] ∧
        accuracy_per_round s' = accuracy_per_round s ++ [a]).
Proof.
  cbn zeta. unfold aggregate_evaluate. rewrite run_bind.
  pose proof (loop_headline results totals0 s) as [Hl Ha].
  destruct (for_each evaluate_step totals0 results s) as [[t|e] s1];
    cbn in *; [|done].
  destruct (decide (total_samples t > 0)).
  - rewrite run_bind, run_truediv_nonzero by lia.
    rewrite run_bind, run_truediv_nonzero by lia.
    rewrite run_bind. cbn -[append_train_test].
    rewrite run_bind. cbn -[append_train_test].
    rewrite run_bind, run_append_train_test_nonzero by (cbn; lia).
    cbn. intros [= <- <-]. right. eexists. by rewrite Hl, Ha.
  - cbn. intros [= <- <-]. by left.
Qed.

(** *** Independence from earlier rounds *)

Lemma append_train_test_value t s1 s2 :
  (append_train_test t s1).1 = (append_train_test t s2).1.
Proof.
  destruct (decide (total_samples t = 0)) as [Hz|Hnz].
  - by rewrite !run_append_train_test_zero.
  - by rewrite !run_append_train_test_nonzero.
Qed.

Lemma evaluate_step_value t entry s1 s2 :
  (evaluate_step t entry s1).1 = (evaluate_step t entry s2).1.
Proof.
  destruct (decide (is_OK entry)) as [Hok|Hno].
  - destruct (metrics entry.2 !! "accuracy") as [acc|] eqn:Hm.
    + rewrite !(run_evaluate_step_ok _ _ _ acc) by done. cbn zeta.
      set (t1 := accumulate _ _ _ _).
      pose proof (append_train_test_value t1 s1 s2) as Hv.
      destruct (append_train_test t1 s1) as [[[]|e1] s1'],
               (append_train_test t1 s2) as [[[]|e2] s2']; cbn in *;
        congruence.
    + by rewrite !run_evaluate_step_keyerror.
  - by rewrite !run_evaluate_step_skip.
Qed.

Lemma loop_value results : ∀ t s1 s2,
  (for_each evaluate_step t results s1).1 =
  (for_each evaluate_step t results s2).1.
Proof.
  induction results as [|entry rest IH]; intros t s1 s2; cbn [for_each];
    [done|].
  rewrite !run_bind.
  pose proof (evaluate_step_value t entry s1 s2) as Hv.
  destruct (evaluate_step t entry s1) as [[t1|e1] s1'],
           (evaluate_step t entry s2) as [[t2|e2] s2']; cbn in *;
    try congruence.
  injection Hv as <-. apply IH.
Qed.

(** X9.  What a call returns or raises does not depend on the series
    accumulated by earlier rounds: the accumulators are local to the
    call. *)
Theorem aggregate_evaluate_value_independent_of_store
    rnd results failures s1 s2 :
  (aggregate_evaluate rnd results failures s1).1 =
  (aggregate_evaluate rnd results failures s2).1.
Proof.
  unfold aggregate_evaluate. rewrite !run_bind.
  pose proof (loop_value results totals0 s1 s2) as Hv.
  destruct (for_each evaluate_step totals0 results s1) as [[t1|e1] s1'],
           (for_each evaluate_step totals0 results s2) as [[t2|e2] s2'];
    cbn in *; try congruence.
  injection Hv as <-.
  destruct (decide (total_samples t1 > 0)); [|done].
  rewrite !run_bind, !run_truediv_nonzero by lia.
  rewrite !run_bind, !run_truediv_nonzero by lia.
  rewrite !run_bind. cbn -[append_train_test].
  rewrite !run_bind. cbn -[append_train_test].
  rewrite !run_bind, !run_append_train_test_nonzero by (cbn; lia).
  done.
Qed.

End EvaluateMore.

(** * Further properties of [aggregate_fit] and of the trimming step *)

Section FitMore.
Context {PF : PyFloat} {TS : TenSEAL} {SZ : Serializers}.

Implicit Types (results : list (ClientProxy * FitRes)).
Implicit Types (vectors : list (list pyfloat)).

Lemma same_size_cons t rest :
  same_size (t :: rest) ↔ Forall (λ u, length u = length t) rest.
Proof.
  unfold same_size. split.
  - intros Hall. apply Forall_forall. intros u Hu.
    apply Hall; [by right | by left].
  - intros Hall u v Hu Hv. rewrite Forall_forall in Hall.
    apply elem_of_cons in Hu as [->|Hu], Hv as [->|Hv];
      rewrite ?(Hall _ Hu), ?(Hall _ Hv); done.
Qed.

Lemma size_check_spec t rest :
  forallb (λ u, Nat.eqb (length u) (length t)) rest = true ↔
  same_size (t :: rest).
Proof.
  rewrite same_size_cons, <- Is_true_true, forallb_True.
  apply Forall_proper; [|done]. intros u.
  by rewrite Is_true_true, Nat.eqb_eq.
Qed.

Lemma sum_length rest : ∀ t,
  Forall (λ u, length u = length t) rest →
  length (fold_left (zip_with fadd) rest t) = length t.
Proof.
  induction rest as [|u rest IH]; intros t Hall; cbn; [done|].
  apply Forall_cons in Hall as [Hu Hall].
  assert (length (zip_with fadd t u) = length t) as Hz.
  { rewrite length_zip_with. lia. }
  rewrite IH; [done|]. by rewrite Hz.
Qed.

(** [torch.mean(torch.stack(ts), dim=0)] on a non-empty list: a vector of
    the common size when the sizes agree, [RuntimeError] otherwise. *)
Lemma torch_mean_stack_cases t rest :
  (same_size (t :: rest) ∧
   ∃ mean, torch_mean_stack (t :: rest) = Ok mean ∧
           ∀ v, v ∈ t :: rest → length mean = length v) ∨
  (¬ same_size (t :: rest) ∧ torch_mean_stack (t :: rest) = Raise RuntimeError).
Proof.
  unfold torch_mean_stack.
  destruct (forallb (λ u, Nat.eqb (length u) (length t)) rest) eqn:Hcheck.
  - apply size_check_spec in Hcheck. left. split; [done|].
    eexists. split; [reflexivity|]. intros v Hv.
    rewrite length_map, sum_length by by apply same_size_cons.
    apply Hcheck; [by left | done].
  - right. split; [|done]. intros Hsame.
    apply size_check_spec in Hsame. congruence.
Qed.

(** [aggregate_fit] in terms of the vectors its loop collects. *)
Lemma aggregate_fit_by_decrypted rnd results failures :
  aggregate_fit rnd results failures =
  match first_decrypted results with
  | [] => Ok (None, ∅)
  | vectors =>
      match torch_mean_stack vectors with
      | Raise e => Raise e
      | Ok mean =>
          Ok (Some (ndarrays_to_parameters
                      [vector_serialize (ckks_vector server_context mean)]), ∅)
      end
  end.
Proof.
  unfold first_decrypted, first_parameters.
  destruct results as [|[c fr] rest]; [done|]. cbn [map head snd].
  destruct (parameters fr) as [p|] eqn:Hp.
  - rewrite (aggregate_fit_first _ _ _ _ _ p) by done.
    by destruct (omap decrypts (tensors p)).
  - unfold aggregate_fit. cbn. by rewrite Hp.
Qed.

(** X10.  Whatever the first client sent, a returned update is a
    [Parameters] object of type ["numpy.ndarray"] holding exactly one
    tensor, the serialized encryption of one vector that has the size of
    every decrypted vector; the metrics dictionary is always empty. *)
Theorem aggregate_fit_result_shape rnd results failures update metrics :
  aggregate_fit rnd results failures = Ok (update, metrics) →
  metrics = ∅ ∧
  ∀ p, update = Some p →
    tensor_type p = "numpy.ndarray" ∧
    ∃ mean,
      tensors p =
        [TBytes (ndarray_to_bytes
                   (vector_serialize (ckks_vector server_context mean)))] ∧
      ∀ v, v ∈ first_decrypted results → length mean = length v.
Proof.
  rewrite aggregate_fit_by_decrypted.
  destruct (first_decrypted results) as [|t rest].
  - intros [= <- <-]. split; [done|]. by intros p [=].
  - destruct (torch_mean_stack_cases t rest)
      as [(_ & mean & -> & Hlen) | (_ & ->)]; [|done].
    intros [= <- <-]. split; [done|]. intros p [= <-].
    split; [done|]. by exists mean.
Qed.



(** X13.  A tensor that does not decrypt (unsupported type, malformed
    bytes, decryption failure) has no influence: dropping it from the
    first client's tensors, wherever it stands, leaves the result of
    [aggregate_fit] unchanged. *)
Theorem aggregate_fit_skips_undecryptable
    rnd c1 c2 fr1 fr2 p1 p2 rest1 rest2 failures before w after :
  parameters fr1 = IsParameters p1 →
  parameters fr2 = IsParameters p2 →
  tensors p1 = before ++ w :: after →
  tensors p2 = before ++ after →
  decrypts w = None →
  aggregate_fit rnd ((c1, fr1) :: rest1) failures =
  aggregate_fit rnd ((c2, fr2) :: rest2) failures.
Proof.
  intros Hp1 Hp2 Ht1 Ht2 Hw.
  rewrite (aggregate_fit_first _ _ _ _ _ p1) by done.
  rewrite (aggregate_fit_first _ _ _ _ _ p2) by done.
  rewrite Ht1, Ht2, !omap_app. cbn. by rewrite Hw.
Qed.

End FitMore.

Section TrimMore.
Context {PF : PyFloat}.

Lemma trim_list_length {A} (lst : list A) (length : nat) :
  List.length (trim_list lst length) = Nat.min length (List.length lst).
Proof.
  unfold trim_list. destruct (decide (length < List.length lst)%nat).
  - apply length_take.
  - lia.
Qed.

(** X14.  [trim_list] keeps the first [length] entries and nothing else:
    the result is a prefix of the list with [min length (len lst)]
    entries, so a list that is already short enough is returned as it
    is. *)
Theorem trim_list_prefix {A} (lst : list A) (length : nat) :
  trim_list lst length `prefix_of` lst ∧
  List.length (trim_list lst length) = Nat.min length (List.length lst).
Proof.
  split; [|apply trim_list_length].
  unfold trim_list. destruct (decide (length < List.length lst)%nat).
  - apply prefix_take.
  - done.
Qed.

(** X15.  After a round with at least one OK report, all of them carrying
    an accuracy and a positive sample count, run on empty series, the
    loss and accuracy series hold one entry each, and trimming to
    [num_rounds] leaves exactly one entry in each train and test series
    (of the [k + 1] the round appended). *)
Theorem one_round_then_trim rnd results failures :
  ok_reports results ≠ [] →
  Forall (λ entry, has_accuracy entry ∧ 0 < num_examples entry.2)
         (ok_reports results) →
  let s := trim_series (aggregate_evaluate rnd results failures initial_store).2 in
  length (loss_per_round s) = 1%nat ∧
  length (accuracy_per_round s) = 1%nat ∧
  length (train_loss_per_round s) = 1%nat ∧
  length (train_accuracy_per_round s) = 1%nat ∧
  length (test_loss_per_round s) = 1%nat ∧
  length (test_accuracy_per_round s) = 1%nat.
Proof.
  intros Hne Hall. cbn zeta.
  assert (Forall has_accuracy (ok_reports results)) as Hacc.
  { eapply Forall_impl; [exact Hall|]. by intros e [? _]. }
  assert (Forall (λ e, 0 ≤ num_examples e.2) (ok_reports results)) as Hnn.
  { eapply Forall_impl; [exact Hall|]. intros e [_ ?]. lia. }
  assert (first_count_positive results) as Hfirst.
  { intros entry Hhead. apply head_Some_elem_of in Hhead.
    rewrite Forall_forall in Hall. by apply Hall. }
  destruct (positive_first_count_safe results Hne Hfirst Hnn) as [Hrun Hpos].
  rewrite aggregate_evaluate_ignores_non_ok_aux.
  rewrite run_aggregate_evaluate_safe; rewrite ?ok_reports_idemp; try done.
  unfold trim_series, num_rounds. cbn -[trim_list].
  rewrite !trim_list_length, !length_map, !length_app.
  cbn [length app]. split_and!; lia.
Qed.

End TrimMore.

(** * The model on concrete rounds *)

Import Toy.

Lemma Qfloat_zero_div (n : Z) : n ≠ 0 → feq (fdiv_int fzero n) fzero.
Proof.
  intros _. cbn. rewrite Qred_correct. unfold Qdiv. apply Qmult_0_l.
Qed.

Lemma toy_contract : TenSEALContract.
Proof.
  split; try done.
  - intros [d ch sc pk gk sk]. eexists. split; [reflexivity|].
    cbn. by destruct pk, gk.
  - intros c v Hsk. cbn in *. by rewrite Hsk.
Qed.

(** Trimming to [num_rounds = 1] keeps one of the three entries that a
    round with two OK reports leaves in a train or test series. *)
Example trim_list_hides_extra_entries :
  trim_list (train_loss_per_round
               (aggregate_evaluate 1 two_reports [] initial_store).2) 1 =
  [0%Q].
Proof. vm_compute. reflexivity. Qed.

(** The specification's evaluation example: [(0.35, {accuracy: 0.75})]. *)
Example aggregate_evaluate_two_reports :
  (aggregate_evaluate 1 two_reports [] initial_store).1 =
  Ok ((7 # 20)%Q, {[ "accuracy" := (3 # 4)%Q ]}).
Proof. vm_compute. reflexivity. Qed.

(** The specification's aggregation example holds when the three vectors
    arrive in one envelope, also with a malformed blob among them. *)
Example aggregate_fit_one_envelope :
  aggregate_fit 1
    [client_update "0"
       [encrypted [1%Q; 1%Q]; encrypted [3%Q; 3%Q]; malformed;
        encrypted [5%Q; 5%Q]]] [] =
  Ok (Some {| tensors := [TBytes (ndarray_to_bytes
                            (vector_serialize
                               (ckks_vector server_context [3%Q; 3%Q])))];
              tensor_type := "numpy.ndarray" |}, ∅).
Proof. vm_compute. reflexivity. Qed.

(** Decrypted vectors of different lengths make [torch.stack] raise. *)
Example aggregate_fit_ragged :
  aggregate_fit 1
    [client_update "0" [encrypted [1%Q; 1%Q]; encrypted [3%Q]]] [] =
  Raise RuntimeError.
Proof. vm_compute. reflexivity. Qed.

(** With [save_secret_key=True] the snapshot would decrypt. *)
Example private_snapshot_decrypts :
  ∃ c, context_from (context_serialize server_context true) = Ok c ∧
       decrypt c [1%Q; 1%Q] = Ok [1%Q; 1%Q].
Proof. eexists. split; vm_compute; reflexivity. Qed.

(** C1.  The claim: the result is the mean over the decrypted vectors of
    all clients.  The code on the specification's example, one vector per
    client ([1,1], [3,3], [5,5]): the result encrypts [1,1], the vector of
    the first client, where the specification's aggregator gives [3,3]. *)
Theorem aggregate_fit_averages_first_client_only :
  aggregate_fit 1 three_clients [] =
    Ok (Some (ndarrays_to_parameters
                [vector_serialize (ckks_vector server_context [1%Q; 1%Q])]), ∅) ∧
  spec_aggregate_fit three_clients =
    Ok (Some (ndarrays_to_parameters
                [vector_serialize (ckks_vector server_context [3%Q; 3%Q])]), ∅).
Proof. split; vm_compute; reflexivity. Qed.

(** C2.  The claim: a payload that fails to deserialize is skipped and the
    mean of the remaining updates is returned.  The code on three clients
    of which the first sent a malformed blob and the others [3,3] and
    [5,5]: the result is the no-update result, where the specification's
    aggregator gives the mean [4,4] of the two valid updates. *)
Theorem aggregate_fit_malformed_first_client_drops_round :
  aggregate_fit 1 one_malformed [] = Ok (None, ∅) ∧
  spec_aggregate_fit one_malformed =
    Ok (Some (ndarrays_to_parameters
                [vector_serialize (ckks_vector server_context [4%Q; 4%Q])]), ∅).
Proof. split; vm_compute; reflexivity. Qed.

(** *** Instances of the general theorems *)

Lemma aggregate_fit_rejects_unusable_input_witness :
  let results :=
    [({| cid := "0" |},
      {| fit_status := ok_status; parameters := NotParameters;
         fit_num_examples := 10; fit_metrics := ∅ |});
     client_update "1" [encrypted [3%Q; 3%Q]]] in
  (results = [] ∨ first_parameters results = Some NotParameters) ∧
  aggregate_fit 1 results [] = Ok (None, ∅).
Proof.
  cbn zeta. split.
  - right. reflexivity.
  - apply aggregate_fit_rejects_unusable_input. right. reflexivity.
Defined.

Lemma aggregate_fit_nothing_decrypts_witness :
  let results :=
    [client_update "0" [malformed; TOther];
     client_update "1" [TList [1%Q; 1%Q]; TBytes []]] in
  results ≠ [] ∧
  Forall (λ w, decrypts w = None) (round_payloads results) ∧
  aggregate_fit 1 results [] = Ok (None, ∅).
Proof.
  cbn zeta. split_and!.
  - discriminate.
  - repeat constructor.
  - apply aggregate_fit_nothing_decrypts.
    + discriminate.
    + repeat constructor.
Defined.

Lemma aggregate_fit_depends_on_first_entry_witness :
  three_clients ≠ [] ∧ [client_update "9" [encrypted [1%Q; 1%Q]]] ≠ [] ∧
  first_parameters three_clients =
    first_parameters [client_update "9" [encrypted [1%Q; 1%Q]]] ∧
  aggregate_fit 1 three_clients [] =
    aggregate_fit 2 [client_update "9" [encrypted [1%Q; 1%Q]]]
      [FailedWith RuntimeError].
Proof.
  split_and!.
  - discriminate.
  - discriminate.
  - reflexivity.
  - apply aggregate_fit_depends_on_first_entry.
    + discriminate.
    + discriminate.
    + reflexivity.
Defined.

Lemma train_test_series_only_zeros_witness :
  (∀ n : Z, n ≠ 0 → feq (fdiv_int fzero n) fzero) ∧
  appends_zeros initial_store
    (aggregate_evaluate 1 two_reports [] initial_store).2.
Proof.
  split.
  - exact Qfloat_zero_div.
  - apply train_test_series_only_zeros. exact Qfloat_zero_div.
Defined.

Lemma public_snapshot_cannot_decrypt_witness :
  TenSEALContract ∧
  ∃ c, context_from ckks_context_tenseal = Ok c ∧
       encryption_parameters c = encryption_parameters server_context ∧
       has_public_key c = true ∧
       has_galois_keys c = true ∧
       has_secret_key c = false ∧
       ∀ v, decrypt c v = Raise ValueError.
Proof.
  split.
  - exact toy_contract.
  - apply (public_snapshot_cannot_decrypt (contract := toy_contract)).
Defined.

(** *** Instances of the further properties *)

Lemma two_reports_all_OK : ok_reports two_reports = two_reports.
Proof. reflexivity. Qed.

Lemma two_reports_valid :
  Forall (λ entry, has_accuracy entry ∧ 0 < num_examples entry.2)
         (ok_reports two_reports).
Proof.
  rewrite two_reports_all_OK.
  repeat constructor; try apply report_has_accuracy; cbn; lia.
Qed.

Lemma aggregate_evaluate_ignores_non_ok_witness :
  let padded := report "9" EVALUATE_NOT_IMPLEMENTED 1%Q 1%Q 5 :: two_reports in
  ok_reports padded = ok_reports two_reports ∧
  aggregate_evaluate 1 padded [] initial_store =
  aggregate_evaluate 2 two_reports [FailedWith RuntimeError] initial_store.
Proof.
  cbn zeta. split.
  - reflexivity.
  - apply aggregate_evaluate_ignores_non_ok. reflexivity.
Defined.

Lemma aggregate_evaluate_without_ok_reports_witness :
  let results := [report "0" FIT_NOT_IMPLEMENTED 1%Q 1%Q 5;
                  report "1" EVALUATE_NOT_IMPLEMENTED 1%Q 1%Q 0] in
  Forall (λ entry, code (status entry.2) ≠ OK) results ∧
  aggregate_evaluate 1 results [] initial_store =
  (Ok (fzero, {[ "accuracy" := fzero ]}), initial_store).
Proof.
  cbn zeta.
  assert (Forall (λ entry : ClientProxy * EvaluateRes,
                    code (status entry.2) ≠ OK)
            [report "0" FIT_NOT_IMPLEMENTED 1%Q 1%Q 5;
             report "1" EVALUATE_NOT_IMPLEMENTED 1%Q 1%Q 0]) as Hnone.
  { repeat constructor; discriminate. }
  split.
  - exact Hnone.
  - apply aggregate_evaluate_without_ok_reports. exact Hnone.
Defined.

Lemma aggregate_evaluate_missing_accuracy_witness :
  let before := [report "0" FIT_NOT_IMPLEMENTED 1%Q 1%Q 5] in
  let entry : ClientProxy * EvaluateRes :=
    ({| cid := "1" |},
     {| status := {| code := OK; message := "" |}; loss := 1%Q;
        num_examples := 10; metrics := ∅ |}) in
  Forall (λ e, code (status e.2) ≠ OK) before ∧
  code (status entry.2) = OK ∧
  metrics entry.2 !! "accuracy" = None ∧
  aggregate_evaluate 1 (before ++ entry :: two_reports) [] initial_store =
  (Raise (KeyError "accuracy"), initial_store).
Proof.
  cbn zeta.
  assert (Forall (λ e : ClientProxy * EvaluateRes, code (status e.2) ≠ OK)
            [report "0" FIT_NOT_IMPLEMENTED 1%Q 1%Q 5]) as Hbefore.
  { repeat constructor; discriminate. }
  split_and!.
  - exact Hbefore.
  - reflexivity.
  - reflexivity.
  - apply aggregate_evaluate_missing_accuracy.
    + exact Hbefore.
    + reflexivity.
    + reflexivity.
Defined.

Lemma aggregate_evaluate_weighted_means_witness :
  ok_reports two_reports ≠ [] ∧
  Forall (λ entry, has_accuracy entry ∧ 0 < num_examples entry.2)
         (ok_reports two_reports) ∧
  ∃ s', aggregate_evaluate 1 two_reports [] initial_store =
          (Ok (fdiv_int (weighted_sum loss (ok_reports two_reports))
                 (sample_count (ok_reports two_reports)),
               {[ "accuracy" :=
                    fdiv_int (weighted_sum accuracy_of (ok_reports two_reports))
                      (sample_count (ok_reports two_reports)) ]}), s') ∧
        loss_per_round s' =
          loss_per_round initial_store ++
          [fdiv_int (weighted_sum loss (ok_reports two_reports))
             (sample_count (ok_reports two_reports))] ∧
        accuracy_per_round s' =
          accuracy_per_round initial_store ++
          [fdiv_int (weighted_sum accuracy_of (ok_reports two_reports))
             (sample_count (ok_reports two_reports))].
Proof.
  split_and!.
  - discriminate.
  - exact two_reports_valid.
  - apply aggregate_evaluate_weighted_means.
    + discriminate.
    + exact two_reports_valid.
Defined.

Lemma aggregate_evaluate_train_test_growth_witness :
  ok_reports two_reports ≠ [] ∧
  Forall (λ entry, has_accuracy entry ∧ 0 < num_examples entry.2)
         (ok_reports two_reports) ∧
  let s' := (aggregate_evaluate 1 two_reports [] initial_store).2 in
  let k := length (ok_reports two_reports) in
  length (train_loss_per_round s') =
    (length (train_loss_per_round initial_store) + k + 1)%nat ∧
  length (train_accuracy_per_round s') =
    (length (train_accuracy_per_round initial_store) + k + 1)%nat ∧
  length (test_loss_per_round s') =
    (length (test_loss_per_round initial_store) + k + 1)%nat ∧
  length (test_accuracy_per_round s') =
    (length (test_accuracy_per_round initial_store) + k + 1)%nat.
Proof.
  split_and!.
  - discriminate.
  - exact two_reports_valid.
  - apply aggregate_evaluate_train_test_growth.
    + discriminate.
    + exact two_reports_valid.
Defined.


Lemma aggregate_evaluate_returns_iff_witness :
  Forall (λ entry, has_accuracy entry ∧ 0 ≤ num_examples entry.2)
         (ok_reports two_reports) ∧
  (first_count_positive two_reports →
   ∃ v, (aggregate_evaluate 1 two_reports [] initial_store).1 = Ok v) ∧
  (¬ first_count_positive two_reports →
   aggregate_evaluate 1 two_reports [] initial_store =
   (Raise ZeroDivisionError, initial_store)).
Proof.
  assert (Forall (λ entry : ClientProxy * EvaluateRes,
                    has_accuracy entry ∧ 0 ≤ num_examples entry.2)
            (ok_reports two_reports)) as Hall.
  { eapply Forall_impl; [exact two_reports_valid|]. intros e [? ?].
    split; [done | lia]. }
  split.
  - exact Hall.
  - apply aggregate_evaluate_returns_iff. exact Hall.
Defined.

Lemma aggregate_fit_result_shape_witness :
  let update :=
    ndarrays_to_parameters
      [vector_serialize (ckks_vector server_context [1%Q; 1%Q])] in
  aggregate_fit 1 three_clients [] = Ok (Some update, ∅) ∧
  (∅ : gmap string pyfloat) = ∅ ∧
  ∀ p, Some update = Some p →
    tensor_type p = "numpy.ndarray" ∧
    ∃ mean,
      tensors p =
        [TBytes (ndarray_to_bytes
                   (vector_serialize (ckks_vector server_context mean)))] ∧
      ∀ v, v ∈ first_decrypted three_clients → length mean = length v.
Proof.
  cbn zeta. split.
  - vm_compute. reflexivity.
  - apply (aggregate_fit_result_shape 1 three_clients []).
    vm_compute. reflexivity.
Defined.

Lemma aggregate_fit_skips_undecryptable_witness :
  let with_blob := client_update "0"
                     [encrypted [1%Q; 1%Q]; malformed; encrypted [3%Q; 3%Q]] in
  let without := client_update "0"
                   [encrypted [1%Q; 1%Q]; encrypted [3%Q; 3%Q]] in
  decrypts malformed = None ∧
  aggregate_fit 1 [with_blob] [] = aggregate_fit 1 [without] [].
Proof.
  cbn zeta. split.
  - reflexivity.
  - eapply (aggregate_fit_skips_undecryptable 1 _ _ _ _ _ _ [] [] []
              [encrypted [1%Q; 1%Q]] malformed [encrypted [3%Q; 3%Q]]);
      reflexivity.
Defined.

Lemma one_round_then_trim_witness :
  ok_reports two_reports ≠ [] ∧
  Forall (λ entry, has_accuracy entry ∧ 0 < num_examples entry.2)
         (ok_reports two_reports) ∧
  let s := trim_series (aggregate_evaluate 1 two_reports [] initial_store).2 in
  length (loss_per_round s) = 1%nat ∧
  length (accuracy_per_round s) = 1%nat ∧
  length (train_loss_per_round s) = 1%nat ∧
  length (train_accuracy_per_round s) = 1%nat ∧
  length (test_loss_per_round s) = 1%nat ∧
  length (test_accuracy_per_round s) = 1%nat.
Proof.
  split_and!.
  - discriminate.
  - exact two_reports_valid.
  - apply one_round_then_trim.
    + discriminate.
    + exact two_reports_valid.
Defined.

Lemma aggregate_evaluate_returns_what_it_appends_witness :
  let s' := (aggregate_evaluate 1 two_reports [] initial_store).2 in
  (aggregate_evaluate 1 two_reports [] initial_store).1 =
    Ok ((7 # 20)%Q, {[ "accuracy" := (3 # 4)%Q ]}) ∧
  (((7 # 20)%Q = fzero ∧
    ({[ "accuracy" := (3 # 4)%Q ]} : gmap string pyfloat) =
      {[ "accuracy" := fzero ]} ∧
    loss_per_round s' = loss_per_round initial_store ∧
    accuracy_per_round s' = accuracy_per_round initial_store) ∨
   (∃ a, ({[ "accuracy" := (3 # 4)%Q ]} : gmap string pyfloat) =
           {[ "accuracy" := a ]} ∧
         loss_per_round s' = loss_per_round initial_store ++ [(7 # 20)%Q] ∧
         accuracy_per_round s' = accuracy_per_round initial_store ++ [a])).
Proof.
  cbn zeta. split.
  - vm_compute. reflexivity.
  - apply (aggregate_evaluate_returns_what_it_appends 1 two_reports []).
    vm_compute. reflexivity.
Defined.
